(** * PharmaBot tool handlers: a shallow embedding of [first.py]

    The five tool functions of the pharmacy bot ([check_stock],
    [get_drug_info], [verify_prescription], [place_order],
    [check_order_status]) read and mutate four module-level dictionaries.
    They are embedded here as functions from a [Store] (the four
    dictionaries) to an outcome and the store left behind.

    Modelling conventions.
    - A Python [str] is a [string]; the model covers ASCII text, so
      [lower] and [upper] act on the letters A-Z / a-z only.
    - A Python [dict] is an association list in insertion order (the
      handlers iterate over [mock_inventory.items()], so order matters).
    - A Python [int] is a [Z].  The [quantity] argument of [place_order]
      is declared [int] but converted with [int(...)], so it ranges over
      the values [pyval]: an integer, a boolean, a string, a float or
      [None].  A float is kept as what [int(...)] reads of it: not a
      number, an infinity, or the dyadic number m * 2^e (every finite
      double is one).
    - [str] of an integer of more than 4300 digits raises [ValueError],
      and so does [int] of a string of more than 4300 digits (the limit of
      CPython on conversions between [int] and [str]).
    - An exception is an explicit [Raised] outcome; a handler that returns
      gives [Returned r].
    - The two reads of the environment in [place_order] ([uuid.uuid4()] and
      [datetime.now()]) are an explicit [Env] argument.
    - Calls to [logging] write to the log, which is not modelled; what is
      kept of them is the exception that building their message can raise.
      Only the message of the first line of [place_order] can: it formats
      the [quantity] argument as it came.  The other numbers that are
      formatted are the quantity after [int(...)], which has passed that
      first line or comes from a string or a float and so has at most 4300
      digits, and numbers held in the store (stock counts, quantities of
      orders), which are taken to have at most 4300 digits, as they do in
      every store the program can reach. *)

From Stdlib Require Import String Ascii List ZArith Bool Lia DecimalString.
Import ListNotations.

Local Open Scope string_scope.
Local Open Scope Z_scope.

(* ------------------------------------------------------------------ *)
(** * Python strings *)

Module PyStr.

Definition is_upper_letter (c : ascii) : bool :=
  let n := N_of_ascii c in ((65 <=? n) && (n <=? 90))%N.

Definition is_lower_letter (c : ascii) : bool :=
  let n := N_of_ascii c in ((97 <=? n) && (n <=? 122))%N.

Definition lower_char (c : ascii) : ascii :=
  if is_upper_letter c then ascii_of_N (N_of_ascii c + 32) else c.

Definition upper_char (c : ascii) : ascii :=
  if is_lower_letter c then ascii_of_N (N_of_ascii c - 32) else c.

Fixpoint map_chars (f : ascii -> ascii) (s : string) : string :=
  match s with
  | EmptyString => EmptyString
  | String c s' => String (f c) (map_chars f s')
  end.

(** [s.lower()] and [s.upper()]. *)
Definition lower : string -> string := map_chars lower_char.
Definition upper : string -> string := map_chars upper_char.

(** Truth value of a string: [bool(s)]. *)
Definition truthy (s : string) : bool :=
  match s with EmptyString => false | String _ _ => true end.

(** [sub in s]: [sub] occurs in [s] as a contiguous substring. *)
Fixpoint contains (sub s : string) : bool :=
  String.prefix sub s
  || match s with
     | EmptyString => false
     | String _ s' => contains sub s'
     end.

(** [s[:n]]. *)
Definition take (n : nat) (s : string) : string := String.substring 0 n s.

(** [str(z)] for an integer. *)
Definition str_of_int (z : Z) : string := NilZero.string_of_int (Z.to_int z).

(** ** The limit on conversions between [int] and [str]

    [sys.get_int_max_str_digits()] is 4300: [str(z)] raises [ValueError]
    when [z] has more than 4300 decimal digits, that is when its absolute
    value is 10^4300 or more. *)

Definition int_max_str_digits : N := 4300.

Definition str_digits_limit : Z := 10 ^ Z.of_N int_max_str_digits.

Definition int_too_long (z : Z) : bool := str_digits_limit <=? Z.abs z.

(** ** [int(s)] on a string

    Surrounding whitespace (tab, line feed, vertical tab, form feed,
    carriage return, space) is dropped, one sign is allowed, then decimal
    digits, where single underscores may separate digits; more than 4300
    digits are refused.  [None] stands for [ValueError]. *)

Definition is_space (c : ascii) : bool :=
  let n := N_of_ascii c in
  (((9 <=? n) && (n <=? 13)) || (n =? 32))%N.

Definition digit_of (c : ascii) : option Z :=
  let n := N_of_ascii c in
  if ((48 <=? n) && (n <=? 57))%N then Some (Z.of_N (n - 48)) else None.

Fixpoint lstrip (l : list ascii) : list ascii :=
  match l with
  | c :: l' => if is_space c then lstrip l' else l
  | [] => []
  end.

Definition strip (l : list ascii) : list ascii :=
  rev (lstrip (rev (lstrip l))).

Fixpoint parse_digits (acc : Z) (after_digit : bool) (l : list ascii)
  : option Z :=
  match l with
  | [] => if after_digit then Some acc else None
  | c :: l' =>
      match digit_of c with
      | Some d => parse_digits (10 * acc + d) true l'
      | None =>
          if (Ascii.eqb c "_" && after_digit)%bool
          then parse_digits acc false l'
          else None
      end
  end.

Fixpoint count_digits (l : list ascii) : N :=
  match l with
  | [] => 0%N
  | c :: l' =>
      ((match digit_of c with Some _ => 1 | None => 0 end)
       + count_digits l')%N
  end.

Definition parse_magnitude (l : list ascii) : option Z :=
  if (int_max_str_digits <? count_digits l)%N then None
  else parse_digits 0 false l.

Definition int_of_str (s : string) : option Z :=
  match strip (list_ascii_of_string s) with
  | "-"%char :: l => option_map Z.opp (parse_magnitude l)
  | "+"%char :: l => parse_magnitude l
  | l => parse_magnitude l
  end.

End PyStr.

(* ------------------------------------------------------------------ *)
(** * Python dictionaries with string keys *)

Module Dict.

Definition t (V : Type) : Type := list (string * V).

Definition keys {V} (d : t V) : list string := map fst d.

(** [d.get(k)]. *)
Fixpoint get {V} (k : string) (d : t V) : option V :=
  match d with
  | [] => None
  | (k', v) :: d' => if String.eqb k' k then Some v else get k d'
  end.

(** [d.get(k, dflt)]. *)
Definition get_default {V} (k : string) (dflt : V) (d : t V) : V :=
  match get k d with Some v => v | None => dflt end.

(** [d[k] = v]: an existing key keeps its place, a new one goes last. *)
Fixpoint set {V} (k : string) (v : V) (d : t V) : t V :=
  match d with
  | [] => [(k, v)]
  | (k', v') :: d' =>
      if String.eqb k' k then (k', v) :: d' else (k', v') :: set k v d'
  end.

(** In-place update of the value stored under [k]; [None] stands for the
    [KeyError] of [d[k]] on a missing key. *)
Fixpoint modify {V} (k : string) (f : V -> V) (d : t V) : option (t V) :=
  match d with
  | [] => None
  | (k', v) :: d' =>
      if String.eqb k' k then Some ((k', f v) :: d')
      else option_map (cons (k', v)) (modify k f d')
  end.

End Dict.

(* ------------------------------------------------------------------ *)
(** * Values, exceptions and tool results *)

(** The scalar values that reach a handler as an argument or leave it in a
    result dictionary. *)
(** A float: not a number, an infinity, or the finite value [m * 2^e]
    (for a double, [m] is below 2^53 in absolute value and [e] is between
    -1074 and 971). *)
Inductive pyfloat : Type :=
| FNan
| FInf (negative : bool)
| FFinite (m e : Z).

Inductive pyval : Type :=
| VNone
| VBool (b : bool)
| VInt (z : Z)
| VStr (s : string)
| VFloat (f : pyfloat).

Inductive exn : Type := ValueError | TypeError | KeyError | OverflowError.

Inductive result (A : Type) : Type :=
| Ok (a : A)
| Raise (e : exn).
Arguments Ok {A} a.
Arguments Raise {A} e.

(** [int(f)] on a float: the value cut off towards zero. *)
Definition int_of_float (f : pyfloat) : result Z :=
  match f with
  | FNan => Raise ValueError
  | FInf _ => Raise OverflowError
  | FFinite m e =>
      Ok (if 0 <=? e then m * 2 ^ e else Z.quot m (2 ^ (- e)))
  end.

(** [int(v)]. *)
Definition py_int (v : pyval) : result Z :=
  match v with
  | VInt z => Ok z
  | VBool b => Ok (if b then 1 else 0)
  | VStr s =>
      match PyStr.int_of_str s with
      | Some z => Ok z
      | None => Raise ValueError
      end
  | VFloat f => int_of_float f
  | VNone => Raise TypeError
  end.

(** What formatting [v] inside an f-string raises, if anything: [str] of
    an integer of more than 4300 digits raises [ValueError]. *)
Definition fstring_raises (v : pyval) : option exn :=
  match v with
  | VInt z => if PyStr.int_too_long z then Some ValueError else None
  | _ => None
  end.

(** [p.ToolResult(data=..., metadata=...)]. *)
Record ToolResult : Type := mkToolResult {
  data : Dict.t pyval;
  metadata : Dict.t pyval
}.

(** What a call of a handler ends in. *)
Inductive outcome : Type :=
| Returned (r : ToolResult)
| Raised (e : exn).

(** The error flag of a result: [metadata.get("is_error")] is [True]. *)
Definition is_error (r : ToolResult) : bool :=
  match Dict.get "is_error" (metadata r) with
  | Some (VBool true) => true
  | _ => false
  end.

Definition feedback (r : ToolResult) : option pyval :=
  Dict.get "feedback" (metadata r).

(* ------------------------------------------------------------------ *)
(** * The domain data store *)

Record InventoryItem : Type := mkItem {
  stock : Z;
  requires_prescription : bool
}.

Record Order : Type := mkOrder {
  medication : string;
  quantity : Z;
  prescription_ref : option string;
  status : string;
  timestamp : string
}.

Record Store : Type := mkStore {
  inventory : Dict.t InventoryItem;
  drug_info : Dict.t (Dict.t string);
  orders : Dict.t Order;
  prescriptions : Dict.t bool
}.

Definition mock_inventory : Dict.t InventoryItem :=
  [ ("Paracetamol 500mg Tablets", mkItem 100 false);
    ("Amoxicillin 250mg Capsules", mkItem 50 true);
    ("Ibuprofen 200mg Tablets", mkItem 0 false);
    ("Lisinopril 10mg Tablets", mkItem 75 true) ].

Definition mock_drug_info : Dict.t (Dict.t string) :=
  [ ("Paracetamol 500mg Tablets",
      [ ("usage", "For mild to moderate pain relief and fever reduction.");
        ("side_effects", "Generally well-tolerated. Rare side effects include allergic reactions.");
        ("contraindications", "Severe liver disease.");
        ("notes", "Follow dosage instructions carefully.") ]);
    ("Amoxicillin 250mg Capsules",
      [ ("usage", "Antibiotic for treating bacterial infections.");
        ("side_effects", "Common: Nausea, rash, diarrhea. Seek medical attention for severe reactions.");
        ("contraindications", "Known allergy to penicillin.");
        ("notes", "Complete the full course as prescribed by your doctor.") ]);
    ("Lisinopril 10mg Tablets",
      [ ("usage", "Treats high blood pressure and heart failure.");
        ("side_effects", "Common: Dizziness, cough, headache. Report persistent side effects to your doctor.");
        ("contraindications", "History of angioedema, pregnancy.");
        ("notes", "Take as directed by your healthcare provider.") ]) ].

Definition mock_orders : Dict.t Order := [].

Definition mock_prescriptions : Dict.t bool :=
  [ ("RX12345", true); ("RX67890", false) ].

(** The store when the module has been loaded. *)
Definition initial_store : Store :=
  mkStore mock_inventory mock_drug_info mock_orders mock_prescriptions.

(** What [place_order] reads from outside the store: the text of
    [str(uuid.uuid4())] and of [datetime.now().isoformat()]. *)
Record Env : Type := mkEnv {
  uuid4 : string;
  now_isoformat : string
}.

(* ------------------------------------------------------------------ *)
(** * Entity lookup

    The same loop is written out in [check_stock], [get_drug_info] and
    [place_order]:
<<
    found_med = None
    for name, data in table.items():
        if medication_name.lower() == name.lower():
            found_med = name; stock_data = data; break
        elif medication_name.lower() in name.lower() and not found_med:
            found_med = name; stock_data = data
>>
    [found] is the pair ([found_med], [stock_data]) so far. *)

Definition not_found_yet {V} (found : option (string * V)) : bool :=
  match found with
  | None => true
  | Some (found_med, _) => negb (PyStr.truthy found_med)
  end.

Fixpoint find_loop {V} (medication_name : string) (items : Dict.t V)
         (found : option (string * V)) : option (string * V) :=
  match items with
  | [] => found
  | (name, data) :: rest =>
      if String.eqb (PyStr.lower medication_name) (PyStr.lower name) then
        Some (name, data)
      else if PyStr.contains (PyStr.lower medication_name) (PyStr.lower name)
              && not_found_yet found then
        find_loop medication_name rest (Some (name, data))
      else
        find_loop medication_name rest found
  end.

(** The loop followed by the test [if found_med and data is not None]. *)
Definition find_med {V} (medication_name : string) (table : Dict.t V)
  : option (string * V) :=
  match find_loop medication_name table None with
  | Some (found_med, data) =>
      if PyStr.truthy found_med then Some (found_med, data) else None
  | None => None
  end.

(* ------------------------------------------------------------------ *)
(** * The five handlers *)

Definition handler : Type := Store -> outcome * Store.

Definition newline : string := String (ascii_of_nat 10) EmptyString.

Definition check_stock (medication_name : string) : handler := fun s =>
  match find_med medication_name (inventory s) with
  | Some (found_med, stock_data) =>
      let stock := stock stock_data in
      let requires_rx := requires_prescription stock_data in
      let rx_status :=
        if requires_rx then "Requires prescription."
        else "Does not require prescription." in
      if 0 <? stock then
        (Returned (mkToolResult
           [ ("requires_prescription", VBool requires_rx);
             ("in_stock", VBool true);
             ("medication_name", VStr found_med);
             ("stock_count", VInt stock) ]
           [ ("feedback",
              VStr ("'" ++ found_med ++ "' is in stock ("
                    ++ PyStr.str_of_int stock ++ " units available). "
                    ++ rx_status)) ]), s)
      else
        (Returned (mkToolResult
           [ ("requires_prescription", VBool requires_rx);
             ("in_stock", VBool false);
             ("medication_name", VStr found_med) ]
           [ ("feedback",
              VStr ("'" ++ found_med ++ "' is currently out of stock. "
                    ++ rx_status));
             ("is_error", VBool true) ]), s)
  | None =>
      (Returned (mkToolResult
         [ ("medication_found", VBool false) ]
         [ ("feedback",
            VStr ("Sorry, I couldn't find '" ++ medication_name
                  ++ "' in our inventory system."));
           ("is_error", VBool true) ]), s)
  end.

Definition get_drug_info (medication_name : string) : handler := fun s =>
  match find_med medication_name (drug_info s) with
  | Some (found_med, info_data) =>
      let info_string :=
        "Information for '" ++ found_med ++ "':" ++ newline
        ++ "- Usage: " ++ Dict.get_default "usage" "N/A" info_data ++ newline
        ++ "- Common Side Effects: "
        ++ Dict.get_default "side_effects" "N/A" info_data ++ newline
        ++ "- Contraindications: "
        ++ Dict.get_default "contraindications" "N/A" info_data ++ newline
        ++ "- Notes: " ++ Dict.get_default "notes" "N/A" info_data
        ++ newline ++ newline
        ++ "**Disclaimer:** This is not medical advice. Always consult your doctor or pharmacist for medical guidance." in
      (Returned (mkToolResult
         [ ("info_found", VBool true) ]
         [ ("feedback", VStr info_string) ]), s)
  | None =>
      (Returned (mkToolResult
         [ ("info_found", VBool false) ]
         [ ("feedback",
            VStr ("Sorry, I don't have detailed information available for '"
                  ++ medication_name ++ "'."));
           ("is_error", VBool true) ]), s)
  end.

Definition verify_prescription (prescription_ref : string) : handler := fun s =>
  let ref_upper := PyStr.upper prescription_ref in
  let is_valid := Dict.get_default ref_upper false (prescriptions s) in
  if is_valid then
    (Returned (mkToolResult
       [ ("verified", VBool true) ]
       [ ("feedback", VStr ("Prescription '" ++ ref_upper ++ "' is valid.")) ]),
     s)
  else
    (Returned (mkToolResult
       [ ("verified", VBool false) ]
       [ ("feedback",
          VStr ("I couldn't verify prescription reference '" ++ ref_upper
                ++ "'. Please double-check the reference number."));
         ("is_error", VBool true) ]), s).

(** The result returned on each failed check of [place_order]. *)
Definition order_refused (reason feedback_text : string) : ToolResult :=
  mkToolResult
    [ ("order_placed", VBool false); ("reason", VStr reason) ]
    [ ("feedback", VStr feedback_text); ("is_error", VBool true) ].

(** The body of the [try] block: [int(quantity)], then [ValueError] on a
    value that is not positive. *)
Definition quantity_int_of (quantity : pyval) : result Z :=
  match py_int quantity with
  | Ok quantity_int =>
      if quantity_int <=? 0 then Raise ValueError else Ok quantity_int
  | Raise e => Raise e
  end.

(** [prescription_ref.upper() if prescription_ref else None]. *)
Definition upper_ref (prescription_ref : option string) : option string :=
  match prescription_ref with
  | Some r => if PyStr.truthy r then Some (PyStr.upper r) else None
  | None => None
  end.

(** [str(uuid.uuid4())[:8].upper()]. *)
Definition new_order_id (env : Env) : string :=
  PyStr.upper (PyStr.take 8 (uuid4 env)).

Definition decrement_stock (n : Z) (item : InventoryItem) : InventoryItem :=
  mkItem (stock item - n) (requires_prescription item).

(** The record stored in [mock_orders] for a new order. *)
Definition new_order (env : Env) (found_med : string) (quantity_int : Z)
           (prescription_ref_upper : option string) : Order :=
  {| medication := found_med;
     quantity := quantity_int;
     prescription_ref := prescription_ref_upper;
     status := "Processing";
     timestamp := now_isoformat env |}.

(** The result returned when the order has been placed. *)
Definition order_confirmed (order_id : string) : ToolResult :=
  mkToolResult
    [ ("order_placed", VBool true); ("order_id", VStr order_id) ]
    [ ("feedback",
       VStr ("Order placed successfully! Your Order ID is " ++ order_id
             ++ ". Current status: Processing.")) ].

(** The part of [place_order] after the checks: the order is stored
    under a fresh id, then the stock of [found_med] is decremented. *)
Definition commit_order (env : Env) (found_med : string) (quantity_int : Z)
           (prescription_ref_upper : option string) : handler := fun s =>
  let order_id := new_order_id env in
  let orders' :=
    Dict.set order_id
      (new_order env found_med quantity_int prescription_ref_upper)
      (orders s) in
  match Dict.modify found_med (decrement_stock quantity_int) (inventory s) with
  | None =>
      (Raised KeyError,
       mkStore (inventory s) (drug_info s) orders' (prescriptions s))
  | Some inventory' =>
      (Returned (order_confirmed order_id),
       mkStore inventory' (drug_info s) orders' (prescriptions s))
  end.

Definition place_order (env : Env) (medication_name : string)
           (quantity : pyval) (prescription_ref : option string)
  : handler := fun s =>
  match fstring_raises quantity with
  | Some e => (Raised e, s)
  | None =>
  match find_med medication_name (inventory s) with
  | None =>
      (Returned (order_refused "Medication not found"
         ("Cannot place order. Medication '" ++ medication_name
          ++ "' not found.")), s)
  | Some (found_med, stock_data) =>
      match quantity_int_of quantity with
      | Raise ValueError | Raise TypeError =>
          match fstring_raises quantity with
          | Some e => (Raised e, s)
          | None =>
              (Returned (order_refused "Invalid quantity"
                 "Cannot place order. Please provide a valid positive number for the quantity."),
               s)
          end
      | Raise e => (Raised e, s)
      | Ok quantity_int =>
          if stock stock_data <? quantity_int then
            (Returned (order_refused "Insufficient stock"
               ("Cannot place order. Insufficient stock for '" ++ found_med
                ++ "'. Available: " ++ PyStr.str_of_int (stock stock_data)
                ++ ".")), s)
          else
            let prescription_ref_upper := upper_ref prescription_ref in
            let missing :=
              (Returned (order_refused "Missing prescription"
                 ("Cannot place order. '" ++ found_med
                  ++ "' requires a prescription reference, but none was provided.")),
               s) in
            if requires_prescription stock_data then
              match prescription_ref_upper with
              | None => missing
              | Some ref =>
                  if negb (PyStr.truthy ref) then missing
                  else if negb (Dict.get_default ref false (prescriptions s))
                  then
                    (Returned (order_refused "Prescription invalid"
                       ("Cannot place order. Prescription reference '" ++ ref
                        ++ "' could not be verified.")), s)
                  else
                    commit_order env found_med quantity_int
                                 prescription_ref_upper s
              end
            else
              commit_order env found_med quantity_int prescription_ref_upper s
      end
  end
  end.

(** When [place_order] raises, and what: the message of its first line
    cannot be built, or [int(quantity)] raises [OverflowError], which the
    [except (ValueError, TypeError)] around it does not catch. *)
Definition place_order_raises (s : Store) (medication_name : string)
           (quantity : pyval) : option exn :=
  match fstring_raises quantity with
  | Some e => Some e
  | None =>
      match find_med medication_name (inventory s), py_int quantity with
      | Some _, Raise OverflowError => Some OverflowError
      | _, _ => None
      end
  end.

Definition check_order_status (order_id : string) : handler := fun s =>
  let order_id_upper := PyStr.upper order_id in
  match Dict.get order_id_upper (orders s) with
  | Some order =>
      (Returned (mkToolResult
         [ ("status_found", VBool true) ]
         [ ("feedback",
            VStr ("Order " ++ order_id_upper ++ " Status: " ++ status order
                  ++ ". Placed for " ++ PyStr.str_of_int (quantity order)
                  ++ "x '" ++ medication order ++ "'.")) ]), s)
  | None =>
      (Returned (mkToolResult
         [ ("status_found", VBool false) ]
         [ ("feedback",
            VStr ("Sorry, I could not find an order with ID '"
                  ++ order_id_upper ++ "'. Please check the ID."));
           ("is_error", VBool true) ]), s)
  end.

(* ------------------------------------------------------------------ *)
(** * Runs of the program *)

(** One call of one of the five tools. *)
Inductive call : Type :=
| CheckStock (medication_name : string)
| GetDrugInfo (medication_name : string)
| VerifyPrescription (prescription_ref : string)
| PlaceOrder (env : Env) (medication_name : string) (quantity : pyval)
             (prescription_ref : option string)
| CheckOrderStatus (order_id : string).

Definition run (c : call) : handler :=
  match c with
  | CheckStock n => check_stock n
  | GetDrugInfo n => get_drug_info n
  | VerifyPrescription r => verify_prescription r
  | PlaceOrder env n q r => place_order env n q r
  | CheckOrderStatus i => check_order_status i
  end.

(** The stores the program can be in: the initial one, and the one left by
    any call made in a store it can be in. *)
Inductive reachable : Store -> Prop :=
| reachable_initial : reachable initial_store
| reachable_call (c : call) (s : Store) :
    reachable s -> reachable (snd (run c s)).

(* ------------------------------------------------------------------ *)
(** * Reading a result *)

(** [r.data.get(k)]. *)
Definition field (k : string) (r : ToolResult) : option pyval :=
  Dict.get k (data r).

Definition has_field (k : string) (r : ToolResult) : bool :=
  match field k r with Some _ => true | None => false end.

(* ------------------------------------------------------------------ *)
(** * The lookup policy in the words of the specification

    Phase one: the first key equal to the query when letter case is
    ignored.  Phase two, when phase one finds nothing: the first key that
    contains the query, letter case ignored.  Otherwise nothing. *)

Definition exact_match {V} (query : string) (e : string * V) : bool :=
  String.eqb (PyStr.lower query) (PyStr.lower (fst e)).

Definition substring_match {V} (query : string) (e : string * V) : bool :=
  PyStr.contains (PyStr.lower query) (PyStr.lower (fst e)).

Definition two_phase_lookup {V} (query : string) (table : Dict.t V)
  : option (string * V) :=
  match find (exact_match query) table with
  | Some e => Some e
  | None => find (substring_match query) table
  end.

(* ------------------------------------------------------------------ *)
(** * The validation steps of an order in the words of the specification

    Each step is a test of its own on the arguments and the store; a step
    that cannot be evaluated (no medication, no number) counts as failed.
    [first_failed_check] walks the steps in the order the specification
    gives and names the first one that fails. *)

Section Validation.

Variables (s : Store) (medication_name : string) (quantity : pyval)
          (prescription_ref : option string).

Definition medication_exists : bool :=
  match find_med medication_name (inventory s) with
  | Some _ => true
  | None => false
  end.

Definition quantity_positive : bool :=
  match py_int quantity with
  | Ok n => 0 <? n
  | Raise _ => false
  end.

Definition sufficient_stock : bool :=
  match find_med medication_name (inventory s), py_int quantity with
  | Some (_, item), Ok n => n <=? stock item
  | _, _ => false
  end.

Definition needs_prescription : bool :=
  match find_med medication_name (inventory s) with
  | Some (_, item) => requires_prescription item
  | None => false
  end.

Definition prescription_present : bool :=
  implb needs_prescription
        match prescription_ref with
        | Some r => PyStr.truthy r
        | None => false
        end.

Definition prescription_verified : bool :=
  implb needs_prescription
        match prescription_ref with
        | Some r => Dict.get_default (PyStr.upper r) false (prescriptions s)
        | None => false
        end.

Definition checks : list (bool * string) :=
  [ (medication_exists, "Medication not found");
    (quantity_positive, "Invalid quantity");
    (sufficient_stock, "Insufficient stock");
    (prescription_present, "Missing prescription");
    (prescription_verified, "Prescription invalid") ].

Definition first_failed_check : option string :=
  option_map snd (find (fun c => negb (fst c)) checks).

Definition all_checks_pass : bool := forallb fst checks.

End Validation.

(* ------------------------------------------------------------------ *)
(** * Success of a call

    The field of the result data that says whether the call did what was
    asked, per tool. *)

Definition outcome_field (c : call) : string :=
  match c with
  | CheckStock _ => "in_stock"
  | GetDrugInfo _ => "info_found"
  | VerifyPrescription _ => "verified"
  | PlaceOrder _ _ _ _ => "order_placed"
  | CheckOrderStatus _ => "status_found"
  end.

Definition succeeded (c : call) (r : ToolResult) : bool :=
  match field (outcome_field c) r with
  | Some (VBool true) => true
  | _ => false
  end.

(** What a call raises, if anything: only [place_order] can. *)
Definition raises (c : call) (s : Store) : option exn :=
  match c with
  | PlaceOrder _ medication_name quantity _ =>
      place_order_raises s medication_name quantity
  | _ => None
  end.

(** The store with other prescription records. *)
Definition with_prescriptions (rx : Dict.t bool) (s : Store) : Store :=
  mkStore (inventory s) (drug_info s) (orders s) rx.

(** An environment for the worked examples. *)
Definition sample_env : Env :=
  mkEnv "3f2a9c1b-7d4e-4a8b-9c6d-1e2f3a4b5c6d" "2025-01-01T10:00:00".

(* ------------------------------------------------------------------ *)
(** * Invariants of the store *)

(** No stock count is negative. *)
Definition stock_nonneg (s : Store) : Prop :=
  Forall (fun e => 0 <= stock (snd e)) (inventory s).

(** Keys that are not empty and stay distinct when letter case is
    ignored: on such a table a key looks up itself. *)
Definition distinct_keys (ks : list string) : Prop :=
  Forall (fun k => k <> "") ks /\ NoDup (map PyStr.lower ks).

(** What no call changes: the catalogue of names, the drug information and
    the prescription records. *)
Definition fixed_tables (s : Store) : Prop :=
  Dict.keys (inventory s) = Dict.keys mock_inventory
  /\ drug_info s = mock_drug_info
  /\ prescriptions s = mock_prescriptions.

(* ------------------------------------------------------------------ *)
(** * Notions for runs of several calls *)

(** The store after a list of calls, made one after the other. *)
Definition run_all (cs : list call) (s : Store) : Store :=
  fold_left (fun s c => snd (run c s)) cs s.

(** No call of the list draws the order id [id]. *)
Definition other_ids (id : string) (cs : list call) : Prop :=
  Forall (fun c =>
            match c with
            | PlaceOrder env _ _ _ => new_order_id env <> id
            | _ => True
            end) cs.

(** The result of a call that returned. *)
Definition returned (o : outcome * Store) : option ToolResult :=
  match fst o with
  | Returned r => Some r
  | Raised _ => None
  end.

(** [place_order] answered [order_placed] true. *)
Definition placed (o : outcome * Store) : bool :=
  match returned o with
  | Some r =>
      match field "order_placed" r with
      | Some (VBool true) => true
      | _ => false
      end
  | None => false
  end.

(** The catalogue is kept: the inventory has the names of the initial
    catalogue in the same order, each with its initial prescription flag
    and a stock count between 0 and its initial stock count. *)
Definition same_medication (e e0 : string * InventoryItem) : Prop :=
  fst e = fst e0
  /\ requires_prescription (snd e) = requires_prescription (snd e0)
  /\ 0 <= stock (snd e) <= stock (snd e0).

Definition catalog_kept (s : Store) : Prop :=
  Forall2 same_medication (inventory s) mock_inventory.

(** What holds of an order on record: its id is in upper case, its status
    is Processing, its quantity is positive and no more than the initial
    stock of its medication, which is a name of the catalogue, and when
    that medication requires a prescription the order carries the valid
    prescription reference. *)
Definition order_ok (e : string * Order) : Prop :=
  PyStr.upper (fst e) = fst e
  /\ status (snd e) = "Processing"
  /\ 0 < quantity (snd e)
  /\ exists item0,
       Dict.get (medication (snd e)) mock_inventory = Some item0
       /\ quantity (snd e) <= stock item0
       /\ (requires_prescription item0 = true ->
           prescription_ref (snd e) = Some "RX12345").

Definition orders_ok (s : Store) : Prop := Forall order_ok (orders s).

(** Units in the inventory and units on the orders on record. *)
Definition total_stock (s : Store) : Z :=
  fold_right (fun e acc => stock (snd e) + acc) 0 (inventory s).

Definition units_on_order (s : Store) : Z :=
  fold_right (fun e acc => quantity (snd e) + acc) 0 (orders s).

(** What every call keeps: the catalogue, the reference tables, sound
    orders, and no more units on order than have left the inventory. *)
Definition kept (s : Store) : Prop :=
  catalog_kept s
  /\ drug_info s = mock_drug_info
  /\ prescriptions s = mock_prescriptions
  /\ orders_ok s
  /\ total_stock s + units_on_order s <= total_stock initial_store.

(** The four guards on the result of [check_stock] that the order journey
    branches on. *)
Definition in_stock_with_prescription (r : ToolResult) : bool :=
  match field "requires_prescription" r, field "in_stock" r with
  | Some (VBool true), Some (VBool true) => true
  | _, _ => false
  end.

Definition in_stock_without_prescription (r : ToolResult) : bool :=
  match field "requires_prescription" r, field "in_stock" r with
  | Some (VBool false), Some (VBool true) => true
  | _, _ => false
  end.

Definition out_of_stock (r : ToolResult) : bool :=
  match field "in_stock" r with
  | Some (VBool false) => true
  | _ => false
  end.

Definition medication_not_found (r : ToolResult) : bool :=
  match field "medication_found" r with
  | Some (VBool false) => true
  | _ => false
  end.

(* ================================================================== *)
(** * Facts about strings *)

Section StringFacts.

Import PyStr.

Lemma upper_lower_char (c : ascii) : upper_char (lower_char c) = upper_char c.
Proof. destruct c as [[] [] [] [] [] [] [] []]; reflexivity. Qed.

Lemma lower_upper_char (c : ascii) : lower_char (upper_char c) = lower_char c.
Proof. destruct c as [[] [] [] [] [] [] [] []]; reflexivity. Qed.

Lemma upper_char_idem (c : ascii) : upper_char (upper_char c) = upper_char c.
Proof. destruct c as [[] [] [] [] [] [] [] []]; reflexivity. Qed.

Lemma upper_lower (s : string) : upper (lower s) = upper s.
Proof.
  unfold upper, lower in *.
  induction s as [|c s IH]; cbn [map_chars]; [reflexivity|].
  now rewrite upper_lower_char, IH.
Qed.

Lemma lower_upper (s : string) : lower (upper s) = lower s.
Proof.
  unfold upper, lower in *.
  induction s as [|c s IH]; cbn [map_chars]; [reflexivity|].
  now rewrite lower_upper_char, IH.
Qed.

Lemma upper_idem (s : string) : upper (upper s) = upper s.
Proof.
  unfold upper, lower in *.
  induction s as [|c s IH]; cbn [map_chars]; [reflexivity|].
  now rewrite upper_char_idem, IH.
Qed.

(** Two strings have the same lower-case form exactly when they have the
    same upper-case form: both say "equal up to letter case". *)
Lemma same_lower_iff_same_upper (a b : string) :
  lower a = lower b <-> upper a = upper b.
Proof.
  split; intros H.
  - rewrite <- (upper_lower a), <- (upper_lower b). now rewrite H.
  - rewrite <- (lower_upper a), <- (lower_upper b). now rewrite H.
Qed.

Lemma truthy_upper (s : string) : truthy (upper s) = truthy s.
Proof. now destruct s. Qed.

Lemma truthy_true_iff (s : string) : truthy s = true <-> s <> "".
Proof. destruct s; simpl; split; congruence. Qed.

Lemma prefix_app (a s : string) :
  String.prefix a s = true <-> exists b, s = a ++ b.
Proof.
  revert s; induction a as [|c a IH]; intros s.
  - split; [intros _; now exists s | now destruct s].
  - destruct s as [|d s]; simpl.
    + split; [discriminate | intros [b Hb]; discriminate].
    + destruct (ascii_dec c d) as [->|Hne].
      * rewrite IH. split; intros [b Hb]; exists b.
        -- now rewrite Hb.
        -- now injection Hb.
      * split; [discriminate|]. intros [b Hb]. injection Hb as Hd _.
        congruence.
Qed.

(** [contains] decides the substring relation. *)
Lemma contains_spec (sub s : string) :
  contains sub s = true <-> exists a b, s = a ++ sub ++ b.
Proof.
  induction s as [|c s IH].
  - cbn [contains]. rewrite orb_false_r, prefix_app. split.
    + intros [b Hb]. now exists "", b.
    + intros [a [b Hab]]. destruct a; simpl in Hab; [now exists b|].
      discriminate.
  - cbn [contains]. rewrite orb_true_iff, prefix_app, IH. split.
    + intros [[b Hb] | [a [b Hab]]].
      * now exists "", b.
      * exists (String c a), b. simpl. now rewrite Hab.
    + intros [a [b Hab]]. destruct a as [|d a]; simpl in Hab.
      * left. now exists b.
      * right. injection Hab as _ Hs. now exists a, b.
Qed.

Lemma contains_refl (s : string) : contains s s = true.
Proof.
  apply contains_spec. exists "", "". simpl.
  induction s as [|c s IH]; simpl; [reflexivity | now rewrite <- IH].
Qed.

End StringFacts.

(* ================================================================== *)
(** * Facts about dictionaries *)

Section DictFacts.

Context {V : Type}.
Implicit Types (d : Dict.t V) (k : string) (v : V).

Lemma get_set_same k v d : Dict.get k (Dict.set k v d) = Some v.
Proof.
  induction d as [|[k' v'] d IH]; simpl.
  - now rewrite String.eqb_refl.
  - destruct (String.eqb k' k) eqn:E; simpl; rewrite E; auto.
Qed.

Lemma get_set_other k k0 v d :
  k0 <> k -> Dict.get k0 (Dict.set k v d) = Dict.get k0 d.
Proof.
  intros Hne. induction d as [|[k' v'] d IH]; simpl.
  - destruct (String.eqb k k0) eqn:E; [|reflexivity].
    apply String.eqb_eq in E. congruence.
  - destruct (String.eqb k' k) eqn:E; simpl.
    + apply String.eqb_eq in E. subst k'.
      destruct (String.eqb k k0) eqn:E0; [|reflexivity].
      apply String.eqb_eq in E0. congruence.
    + now rewrite IH.
Qed.

(** Updating in place the value under a key that is present succeeds,
    changes that value only, and keeps keys and order. *)
Lemma modify_present k v (f : V -> V) d :
  Dict.get k d = Some v ->
  exists d',
    Dict.modify k f d = Some d'
    /\ Dict.get k d' = Some (f v)
    /\ (forall k0, k0 <> k -> Dict.get k0 d' = Dict.get k0 d)
    /\ Dict.keys d' = Dict.keys d.
Proof.
  induction d as [|[k' v'] d IH]; simpl; [discriminate|].
  destruct (String.eqb k' k) eqn:E.
  - intros [= ->]. eexists; split; [reflexivity|]. simpl. rewrite E.
    repeat split. intros k0 Hne. apply String.eqb_eq in E. subst k'.
    destruct (String.eqb k k0) eqn:E0; [|reflexivity].
    apply String.eqb_eq in E0. congruence.
  - intros Hget. destruct (IH Hget) as (d' & Hm & Hg & Ho & Hk).
    rewrite Hm. eexists; split; [reflexivity|]. simpl. rewrite E.
    repeat split; [assumption| |now rewrite Hk].
    intros k0 Hne. destruct (String.eqb k' k0); auto.
Qed.

Lemma modify_values k (f : V -> V) d d' (P : V -> Prop) :
  Dict.modify k f d = Some d' ->
  (forall v, Dict.get k d = Some v -> P v -> P (f v)) ->
  Forall (fun e => P (snd e)) d -> Forall (fun e => P (snd e)) d'.
Proof.
  revert d'. induction d as [|[k' v'] d IH]; simpl; intros d'; [discriminate|].
  destruct (String.eqb k' k) eqn:E.
  - intros [= <-] Hf Hall. inversion Hall; subst. constructor; auto.
    simpl in *. auto.
  - destruct (Dict.modify k f d) as [d0|]; simpl; [|discriminate].
    intros [= <-] Hf Hall. inversion Hall; subst. constructor; auto.
Qed.

End DictFacts.

(* ================================================================== *)
(** * Facts about the lookup loop *)

Section LookupFacts.

Context {V : Type}.
Implicit Types (d : Dict.t V) (e : string * V) (q : string).

Lemma NoDup_map_inj {A B} (f : A -> B) (l : list A) (a b : A) :
  NoDup (map f l) -> In a l -> In b l -> f a = f b -> a = b.
Proof.
  induction l as [|x l IH]; simpl; [tauto|].
  intros Hnd Ha Hb Hf. inversion Hnd as [|? ? Hnotin Hnd']; subst.
  destruct Ha as [->|Ha], Hb as [->|Hb]; auto.
  - exfalso. apply Hnotin. rewrite Hf. now apply in_map.
  - exfalso. apply Hnotin. rewrite <- Hf. now apply in_map.
Qed.

Lemma NoDup_keys_get d k v :
  NoDup (Dict.keys d) -> In (k, v) d -> Dict.get k d = Some v.
Proof.
  induction d as [|[k' v'] d IH]; simpl; [tauto|].
  intros Hnd Hin. inversion Hnd as [|? ? Hnotin Hnd']; subst.
  destruct Hin as [[= -> ->]|Hin].
  - now rewrite String.eqb_refl.
  - destruct (String.eqb k' k) eqn:E; [|auto].
    apply String.eqb_eq in E. subst k'. exfalso. apply Hnotin.
    change k with (fst (k, v)). now apply in_map.
Qed.

Lemma distinct_keys_NoDup (ks : list string) :
  distinct_keys ks -> NoDup ks.
Proof. intros [_ H]. now apply NoDup_map_inv in H. Qed.

(** Once a name has been kept, only an exact match replaces it. *)
Lemma find_loop_kept q d k v :
  PyStr.truthy k = true ->
  find_loop q d (Some (k, v)) =
    match find (exact_match q) d with
    | Some e => Some e
    | None => Some (k, v)
    end.
Proof.
  intros Hk. induction d as [|[name data] d IH]; simpl; [reflexivity|].
  unfold exact_match at 1. simpl fst.
  destruct (String.eqb (PyStr.lower q) (PyStr.lower name)); [reflexivity|].
  rewrite Hk. simpl. rewrite andb_false_r. exact IH.
Qed.

(** Whatever the loop returns was its starting value or is an entry of
    the table. *)
Lemma find_loop_In q d found e :
  find_loop q d found = Some e -> found = Some e \/ In e d.
Proof.
  revert found. induction d as [|[name data] d IH]; simpl; intros found.
  - auto.
  - destruct (String.eqb (PyStr.lower q) (PyStr.lower name)).
    + intros [= <-]. auto.
    + destruct (PyStr.contains (PyStr.lower q) (PyStr.lower name)
                && not_found_yet found); intros H; apply IH in H.
      * destruct H as [[= <-]|H]; auto.
      * destruct H; auto.
Qed.

Lemma find_med_In q d k v : find_med q d = Some (k, v) -> In (k, v) d.
Proof.
  unfold find_med.
  destruct (find_loop q d None) as [[k' v']|] eqn:E; [|discriminate].
  destruct (PyStr.truthy k'); [|discriminate].
  intros [= -> ->]. apply find_loop_In in E. destruct E; [discriminate|auto].
Qed.

(** On keys that are not empty the loop is the two-phase lookup. *)
Lemma find_loop_two_phase q d :
  Forall (fun k => k <> "") (Dict.keys d) ->
  find_loop q d None = two_phase_lookup q d.
Proof.
  unfold two_phase_lookup.
  induction d as [|[name data] d IH]; simpl; [reflexivity|].
  intros Hne. inversion Hne as [|? ? Hname Hrest]; subst.
  unfold exact_match at 1, substring_match at 1. simpl fst.
  destruct (String.eqb (PyStr.lower q) (PyStr.lower name)); [reflexivity|].
  destruct (PyStr.contains (PyStr.lower q) (PyStr.lower name)); simpl.
  - rewrite find_loop_kept by now apply truthy_true_iff.
    now destruct (find (exact_match q) d).
  - now apply IH.
Qed.

Lemma find_med_two_phase q d :
  Forall (fun k => k <> "") (Dict.keys d) ->
  find_med q d = two_phase_lookup q d.
Proof.
  intros Hne. unfold find_med. rewrite find_loop_two_phase by assumption.
  destruct (two_phase_lookup q d) as [[k v]|] eqn:E; [|reflexivity].
  assert (Hin : In (k, v) d).
  { unfold two_phase_lookup in E.
    destruct (find (exact_match q) d) eqn:E1.
    - injection E as ->. now apply find_some in E1.
    - now apply find_some in E. }
  rewrite Forall_forall in Hne.
  assert (Hk : k <> "") by (apply Hne; change k with (fst (k, v)); now apply in_map).
  apply truthy_true_iff in Hk. now rewrite Hk.
Qed.

(** A key of a table with distinct keys looks up its own entry. *)
Lemma find_med_self d k v :
  distinct_keys (Dict.keys d) -> In (k, v) d -> find_med k d = Some (k, v).
Proof.
  intros [Hne Hnd] Hin. rewrite find_med_two_phase by assumption.
  unfold two_phase_lookup.
  destruct (find (exact_match k) d) as [e|] eqn:E.
  - apply find_some in E. destruct E as [He Hex].
    unfold exact_match in Hex. apply String.eqb_eq in Hex.
    f_equal. symmetry.
    apply (NoDup_map_inj (fun e => PyStr.lower (fst e)) d); auto.
    unfold Dict.keys in Hnd. now rewrite map_map in Hnd.
  - exfalso. apply (find_none _ _ E) in Hin.
    unfold exact_match in Hin. simpl in Hin.
    now rewrite String.eqb_refl in Hin.
Qed.

(** The hypothesis on the keys is needed: an empty key that matches the
    empty query stops the loop and then fails the final test. *)
Example empty_key_is_not_found :
  find_med "" [("", 1); ("ab", 2)] = None
  /\ two_phase_lookup "" [("", 1); ("ab", 2)] = Some ("", 1).
Proof. split; reflexivity. Qed.

End LookupFacts.

(* ================================================================== *)
(** * Facts about [place_order] *)

Section PlaceOrderFacts.

Variables (env : Env) (s : Store) (medication_name : string)
          (quantity : pyval) (prescription_ref : option string).

(** What [int] raises. *)
Lemma py_int_raises (v : pyval) (e : exn) :
  py_int v = Raise e ->
  e = ValueError \/ e = TypeError \/ e = OverflowError.
Proof.
  destruct v as [|b|z|str|[|neg|m ex]]; simpl; try discriminate.
  - intros [= <-]. auto.
  - destruct (PyStr.int_of_str str); [discriminate|]. intros [= <-]. auto.
  - intros [= <-]. auto.
  - intros [= <-]. auto.
Qed.

(** When it raises, [place_order] leaves the store as it was. *)
Lemma place_order_raised (e : exn) :
  place_order_raises s medication_name quantity = Some e ->
  place_order env medication_name quantity prescription_ref s = (Raised e, s).
Proof.
  unfold place_order_raises, place_order, quantity_int_of.
  destruct (fstring_raises quantity) as [e0|]; [now intros [= ->]|].
  destruct (find_med medication_name (inventory s)) as [[k item]|];
    [|discriminate].
  destruct (py_int quantity) as [n|[| | |]]; try discriminate.
  now intros [= <-].
Qed.

(** A failed step and no exception: the call returns the refusal that
    names the first failed step, and the store is the one it started
    from. *)
Lemma place_order_refused (reason : string) :
  place_order_raises s medication_name quantity = None ->
  first_failed_check s medication_name quantity prescription_ref
    = Some reason ->
  exists text,
    place_order env medication_name quantity prescription_ref s
      = (Returned (order_refused reason text), s).
Proof.
  unfold place_order_raises, first_failed_check, checks, place_order,
    quantity_int_of, medication_exists, quantity_positive, sufficient_stock,
    prescription_present, prescription_verified, needs_prescription,
    upper_ref.
  destruct (fstring_raises quantity) as [e0|]; [discriminate|].
  destruct (find_med medication_name (inventory s)) as [[k item]|];
    cbn [find fst snd negb option_map].
  2:{ intros _ [= <-]. eexists. reflexivity. }
  destruct (py_int quantity) as [n|e] eqn:Eq.
  2:{ cbn [find fst snd negb option_map]. intros Hr [= <-].
      destruct (py_int_raises _ _ Eq) as [-> | [-> | ->]];
        [eexists; reflexivity | eexists; reflexivity | discriminate]. }
  intros _.
  destruct (Z.ltb_spec 0 n), (Z.leb_spec n 0); try lia;
    cbn [find fst snd negb option_map].
  2:{ intros [= <-]. eexists. reflexivity. }
  destruct (Z.leb_spec n (stock item)), (Z.ltb_spec (stock item) n);
    try lia; cbn [find fst snd negb option_map].
  2:{ intros [= <-]. eexists. reflexivity. }
  destruct (requires_prescription item);
    cbn [implb find fst snd negb option_map]; [|discriminate].
  destruct prescription_ref as [r|];
    cbn [implb find fst snd negb option_map].
  2:{ intros [= <-]. eexists. reflexivity. }
  destruct (PyStr.truthy r) eqn:Er; cbn [find fst snd negb option_map].
  2:{ intros [= <-]. eexists. reflexivity. }
  rewrite truthy_upper, Er. cbn [negb].
  destruct (Dict.get_default (PyStr.upper r) false (prescriptions s));
    cbn [find fst snd negb option_map]; [discriminate|].
  intros [= <-]. eexists. reflexivity.
Qed.

(** No failed step and no exception: the call is the commit of the
    matched medication, the quantity as an integer and the upper-cased
    reference. *)
Lemma place_order_accepted :
  place_order_raises s medication_name quantity = None ->
  first_failed_check s medication_name quantity prescription_ref = None ->
  exists found_med stock_data quantity_int,
    find_med medication_name (inventory s) = Some (found_med, stock_data)
    /\ py_int quantity = Ok quantity_int
    /\ 0 < quantity_int <= stock stock_data
    /\ place_order env medication_name quantity prescription_ref s
       = commit_order env found_med quantity_int
                      (upper_ref prescription_ref) s.
Proof.
  unfold place_order_raises, first_failed_check, checks, place_order,
    quantity_int_of, medication_exists, quantity_positive, sufficient_stock,
    prescription_present, prescription_verified, needs_prescription,
    upper_ref.
  destruct (fstring_raises quantity) as [e0|]; [discriminate|].
  destruct (find_med medication_name (inventory s)) as [[k item]|];
    cbn [find fst snd negb option_map]; [|discriminate].
  destruct (py_int quantity) as [n|e] eqn:Eq;
    cbn [find fst snd negb option_map]; [|discriminate].
  intros _.
  destruct (Z.ltb_spec 0 n), (Z.leb_spec n 0); try lia;
    cbn [find fst snd negb option_map]; [|discriminate].
  destruct (Z.leb_spec n (stock item)), (Z.ltb_spec (stock item) n);
    try lia; cbn [find fst snd negb option_map]; [|discriminate].
  intros Hrx. exists k, item, n. repeat split; try assumption.
  destruct (requires_prescription item);
    cbn [implb find fst snd negb option_map] in Hrx; [|reflexivity].
  destruct prescription_ref as [r|];
    cbn [implb find fst snd negb option_map] in Hrx; [|discriminate].
  destruct (PyStr.truthy r) eqn:Er;
    cbn [find fst snd negb option_map] in Hrx; [|discriminate].
  rewrite truthy_upper, Er. cbn [negb].
  destruct (Dict.get_default (PyStr.upper r) false (prescriptions s));
    cbn [find fst snd negb option_map] in Hrx; [reflexivity|discriminate].
Qed.

End PlaceOrderFacts.

(* ================================================================== *)
(** * Facts about the commit and about runs *)

Section RunFacts.

Lemma get_present {V} (d : Dict.t V) (k : string) :
  In k (Dict.keys d) -> exists v, Dict.get k d = Some v.
Proof.
  induction d as [|[k' v'] d IH]; simpl; [tauto|].
  intros [->|Hin].
  - rewrite String.eqb_refl. eauto.
  - destruct (String.eqb k' k); eauto.
Qed.

(** The commit returns whenever the name is a key of the inventory. *)
Lemma commit_order_returns env k n rx s item :
  Dict.get k (inventory s) = Some item ->
  exists inventory',
    Dict.modify k (decrement_stock n) (inventory s) = Some inventory'
    /\ commit_order env k n rx s
       = (Returned (order_confirmed (new_order_id env)),
          mkStore inventory' (drug_info s)
                  (Dict.set (new_order_id env) (new_order env k n rx)
                            (orders s))
                  (prescriptions s)).
Proof.
  intros Hget.
  destruct (modify_present k item (decrement_stock n) _ Hget)
    as (d' & Hm & _).
  exists d'. split; [assumption|]. unfold commit_order. now rewrite Hm.
Qed.

Lemma mock_inventory_distinct : distinct_keys (Dict.keys mock_inventory).
Proof.
  split.
  - repeat constructor; discriminate.
  - repeat constructor; simpl; intuition discriminate.
Qed.

Lemma mock_drug_info_distinct : distinct_keys (Dict.keys mock_drug_info).
Proof.
  split.
  - repeat constructor; discriminate.
  - repeat constructor; simpl; intuition discriminate.
Qed.

(** The four handlers that only read. *)
Lemma read_only (c : call) (s : Store) :
  match c with PlaceOrder _ _ _ _ => False | _ => True end ->
  snd (run c s) = s.
Proof.
  destruct c; simpl; intros H; try contradiction.
  - unfold check_stock.
    destruct (find_med _ _) as [[k item]|]; [|reflexivity].
    now destruct (0 <? stock item).
  - unfold get_drug_info. now destruct (find_med _ _) as [[k item]|].
  - unfold verify_prescription. now destruct (Dict.get_default _ _ _).
  - unfold check_order_status. now destruct (Dict.get _ _).
Qed.

(** One call of [place_order]: an exception and nothing changed, a
    refusal and nothing changed, or the commit. *)
Lemma place_order_outcome env name q ref s :
  (exists e,
      place_order_raises s name q = Some e
      /\ place_order env name q ref s = (Raised e, s))
  \/
  (exists reason text,
      place_order_raises s name q = None
      /\ first_failed_check s name q ref = Some reason
      /\ place_order env name q ref s
         = (Returned (order_refused reason text), s))
  \/
  (exists k item n inventory',
      place_order_raises s name q = None
      /\ first_failed_check s name q ref = None
      /\ find_med name (inventory s) = Some (k, item)
      /\ py_int q = Ok n
      /\ 0 < n <= stock item
      /\ Dict.modify k (decrement_stock n) (inventory s) = Some inventory'
      /\ place_order env name q ref s
         = (Returned (order_confirmed (new_order_id env)),
            mkStore inventory' (drug_info s)
                    (Dict.set (new_order_id env)
                              (new_order env k n (upper_ref ref))
                              (orders s))
                    (prescriptions s))).
Proof.
  destruct (place_order_raises s name q) as [e|] eqn:Er.
  { left. exists e. split; [reflexivity|]. now apply place_order_raised. }
  right.
  destruct (first_failed_check s name q ref) as [reason|] eqn:E.
  - left. destruct (place_order_refused env _ _ _ _ _ Er E) as [text Ht].
    now exists reason, text.
  - right.
    destruct (place_order_accepted env _ _ _ _ Er E)
      as (k & item & n & Hf & Hq & Hn & Hp).
    assert (Hin : In k (Dict.keys (inventory s))).
    { apply find_med_In in Hf. change k with (fst (k, item)).
      now apply in_map. }
    destruct (get_present _ _ Hin) as [item' Hget].
    destruct (commit_order_returns env k n (upper_ref ref) s item' Hget)
      as (inv' & Hm & Hc).
    exists k, item, n, inv'. rewrite Hp, Hc. auto 10.
Qed.

(** On an inventory with no repeated key the committed call lowers the
    stock of the matched entry itself. *)
Lemma place_order_cases env name q ref s :
  NoDup (Dict.keys (inventory s)) ->
  (exists e,
      place_order_raises s name q = Some e
      /\ place_order env name q ref s = (Raised e, s))
  \/
  (exists reason text,
      place_order_raises s name q = None
      /\ first_failed_check s name q ref = Some reason
      /\ place_order env name q ref s
         = (Returned (order_refused reason text), s))
  \/
  (exists k item n inventory',
      place_order_raises s name q = None
      /\ first_failed_check s name q ref = None
      /\ find_med name (inventory s) = Some (k, item)
      /\ Dict.get k (inventory s) = Some item
      /\ py_int q = Ok n
      /\ 0 < n <= stock item
      /\ Dict.modify k (decrement_stock n) (inventory s) = Some inventory'
      /\ place_order env name q ref s
         = (Returned (order_confirmed (new_order_id env)),
            mkStore inventory' (drug_info s)
                    (Dict.set (new_order_id env)
                              (new_order env k n (upper_ref ref))
                              (orders s))
                    (prescriptions s))).
Proof.
  intros Hnd.
  destruct (place_order_outcome env name q ref s)
    as [H|[H|(k & item & n & inv' & Er & E & Hf & Hq & Hn & Hm & Hp)]];
    [now left | now right; left | right; right].
  exists k, item, n, inv'. repeat split; try assumption; try apply Hn.
  apply NoDup_keys_get; [assumption | now apply find_med_In in Hf].
Qed.

(** The checks all pass exactly when none is the first to fail. *)
Lemma all_checks_pass_iff s name q ref :
  all_checks_pass s name q ref = true
  <-> first_failed_check s name q ref = None.
Proof.
  unfold all_checks_pass, first_failed_check, checks.
  cbn [forallb find fst snd].
  destruct (medication_exists s name), (quantity_positive q),
    (sufficient_stock s name q), (prescription_present s name ref),
    (prescription_verified s name ref); simpl; split; congruence.
Qed.

(** A call keeps the fixed tables and keeps every stock count at zero
    or above. *)
Lemma run_invariant (c : call) (s : Store) :
  fixed_tables s /\ stock_nonneg s ->
  fixed_tables (snd (run c s)) /\ stock_nonneg (snd (run c s)).
Proof.
  intros [Hfix Hpos].
  destruct c as [n|n|r|env name q ref|i];
    try (rewrite read_only by exact I; now split).
  assert (Hnd : NoDup (Dict.keys (inventory s))).
  { destruct Hfix as [-> _].
    apply distinct_keys_NoDup, mock_inventory_distinct. }
  simpl run.
  destruct (place_order_cases env name q ref s Hnd)
    as [(e & _ & ->)
       |[(reason & text & _ & _ & ->)
        |(k & item & m & inv' & _ & _ & _ & Hget & _ & Hm & Hmod & ->)]];
    [now split | now split |].
  simpl snd.
  destruct (modify_present k item (decrement_stock m) _ Hget)
    as (d' & Hm' & _ & _ & Hkeys).
  rewrite Hmod in Hm'. injection Hm' as <-.
  destruct Hfix as (Hk & Hd & Hp). split.
  - unfold fixed_tables. simpl. rewrite Hkeys. auto.
  - unfold stock_nonneg in *. simpl.
    apply (modify_values k (decrement_stock m) (inventory s) inv'
             (fun it => 0 <= stock it) Hmod); [|assumption].
    intros v Hv _. rewrite Hget in Hv. injection Hv as <-. simpl. lia.
Qed.

Lemma initial_invariant :
  fixed_tables initial_store /\ stock_nonneg initial_store.
Proof.
  split; [now repeat split|].
  unfold stock_nonneg. simpl. repeat constructor; simpl; lia.
Qed.

Lemma reachable_invariant (s : Store) :
  reachable s -> fixed_tables s /\ stock_nonneg s.
Proof.
  induction 1 as [|c s _ IH]; [apply initial_invariant|].
  now apply run_invariant.
Qed.

Lemma reachable_distinct (s : Store) :
  reachable s -> distinct_keys (Dict.keys (inventory s)).
Proof.
  intros H. apply reachable_invariant in H. destruct H as [[-> _] _].
  apply mock_inventory_distinct.
Qed.

(** Handed a name that is no key of the inventory, the commit raises
    [KeyError] after the order has been stored. *)
Example commit_order_missing_key :
  commit_order sample_env "Aspirin" 1 None initial_store
  = (Raised KeyError,
     mkStore mock_inventory mock_drug_info
             [(new_order_id sample_env,
               new_order sample_env "Aspirin" 1 None)]
             mock_prescriptions).
Proof. reflexivity. Qed.

(** A generated order id is already in upper case. *)
Lemma new_order_id_upper (env : Env) :
  PyStr.upper (new_order_id env) = new_order_id env.
Proof. unfold new_order_id. apply upper_idem. Qed.

End RunFacts.

(* ================================================================== *)
(** * More facts about the lookup *)

Section MoreLookupFacts.

Context {V : Type}.
Implicit Types (d : Dict.t V) (e : string * V) (q : string).

Lemma exact_is_substring q e :
  exact_match q e = true -> substring_match q e = true.
Proof.
  unfold exact_match, substring_match. intros H.
  apply String.eqb_eq in H. rewrite H. apply contains_refl.
Qed.

(** An entry the loop picks up on its way matches the query. *)
Lemma find_loop_matches q d found e :
  find_loop q d found = Some e ->
  found = Some e \/ (In e d /\ substring_match q e = true).
Proof.
  revert found. induction d as [|[name data] d IH]; simpl; intros found.
  - auto.
  - destruct (String.eqb (PyStr.lower q) (PyStr.lower name)) eqn:Ex.
    + intros [= <-]. right. split; [auto|].
      now apply exact_is_substring.
    + destruct (PyStr.contains (PyStr.lower q) (PyStr.lower name)) eqn:Es;
        simpl.
      * destruct (not_found_yet found); intros H; apply IH in H.
        -- destruct H as [[= <-]|[H1 H2]]; right; auto.
        -- destruct H as [H|[H1 H2]]; auto.
      * intros H; apply IH in H. destruct H as [H|[H1 H2]]; auto.
Qed.

Lemma find_none_iff (f : string * V -> bool) d :
  find f d = None <-> Forall (fun e => f e = false) d.
Proof.
  induction d as [|e d IH]; simpl.
  - split; auto.
  - destruct (f e) eqn:E.
    + split; [discriminate|]. intros H. apply Forall_inv in H.
      simpl in H. congruence.
    + rewrite IH. split; intros H.
      * now constructor.
      * now inversion H.
Qed.

Lemma two_phase_none_iff q d :
  two_phase_lookup q d = None
  <-> Forall (fun e => substring_match q e = false) d.
Proof.
  unfold two_phase_lookup. rewrite <- find_none_iff.
  destruct (find (exact_match q) d) as [e|] eqn:E; [|reflexivity].
  split; [discriminate|]. intros H.
  apply find_some in E. destruct E as [Hin Hex].
  apply exact_is_substring in Hex.
  apply (find_none _ _ H) in Hin. congruence.
Qed.

Lemma no_exact_match_for_empty d :
  Forall (fun k => k <> "") (Dict.keys d) ->
  find (exact_match "") d = None.
Proof.
  intros Hne. apply find_none_iff.
  induction d as [|[k v] d IH]; [constructor|].
  inversion Hne as [|? ? Hk Hrest]; subst. constructor; [|now apply IH].
  unfold exact_match. simpl. destruct k; [congruence | reflexivity].
Qed.

(** The empty query is contained in every name, so it finds the first
    entry. *)
Lemma find_med_empty_query d k v :
  Forall (fun k => k <> "") (Dict.keys ((k, v) :: d)) ->
  find_med "" ((k, v) :: d) = Some (k, v).
Proof.
  intros Hne. rewrite find_med_two_phase by exact Hne.
  unfold two_phase_lookup. rewrite (no_exact_match_for_empty _ Hne).
  simpl. unfold substring_match. simpl.
  now destruct (PyStr.lower k).
Qed.

End MoreLookupFacts.

(* ------------------------------------------------------------------ *)
(** * What every reachable store keeps *)

Section KeptFacts.

Lemma set_Forall {V} (P : string * V -> Prop) k v (d : Dict.t V) :
  Forall P d -> P (k, v) -> Forall P (Dict.set k v d).
Proof.
  intros Hd Hkv. induction d as [|[k' v'] d IH]; simpl.
  - now constructor.
  - inversion Hd as [|? ? Hhd Htl]; subst.
    destruct (String.eqb k' k) eqn:E.
    + apply String.eqb_eq in E. subst k'. now constructor.
    + constructor; auto.
Qed.

Lemma get_set_kept {V} k k0 v (d : Dict.t V) :
  Dict.get k0 d <> None -> Dict.get k0 (Dict.set k v d) <> None.
Proof.
  intros H. destruct (string_dec k0 k) as [->|Hne].
  - now rewrite get_set_same.
  - now rewrite get_set_other.
Qed.

Lemma modify_Forall2 {V W} (R : string * V -> W -> Prop) k (f : V -> V)
      (d d' : Dict.t V) (d0 : list W) :
  Dict.modify k f d = Some d' ->
  (forall v w, Dict.get k d = Some v -> R (k, v) w -> R (k, f v) w) ->
  Forall2 R d d0 -> Forall2 R d' d0.
Proof.
  intros Hm Hf Hall. revert d' Hm Hf.
  induction Hall as [|[k' v'] w d d0 Hhd Htl IH]; simpl; intros d' Hm Hf;
    [discriminate|].
  destruct (String.eqb k' k) eqn:E.
  - injection Hm as <-. apply String.eqb_eq in E. subst k'.
    constructor; auto.
  - destruct (Dict.modify k f d) as [d1|]; simpl in Hm; [|discriminate].
    injection Hm as <-. constructor; auto.
Qed.

Lemma catalog_kept_get (d : Dict.t InventoryItem) d0 k item :
  Forall2 same_medication d d0 ->
  Dict.get k d = Some item ->
  exists item0,
    Dict.get k d0 = Some item0
    /\ requires_prescription item = requires_prescription item0
    /\ 0 <= stock item <= stock item0.
Proof.
  induction 1 as [|[k1 v1] [k0 v0] d d0 Hhd Htl IH]; simpl; [discriminate|].
  destruct Hhd as (Hk & Hrx & Hst). simpl in Hk, Hrx, Hst. subst k0.
  destruct (String.eqb k1 k); [|exact IH].
  intros [= <-]. eauto.
Qed.

Lemma catalog_kept_keys (s : Store) :
  catalog_kept s -> Dict.keys (inventory s) = Dict.keys mock_inventory.
Proof.
  unfold catalog_kept. generalize (inventory s), mock_inventory.
  induction 1 as [|e e0 d d0 (Hk & _) _ IH]; simpl; [reflexivity|].
  now rewrite Hk, IH.
Qed.

Lemma modify_total_stock k n (d d' : Dict.t InventoryItem) :
  Dict.modify k (decrement_stock n) d = Some d' ->
  fold_right (fun e acc => stock (snd e) + acc) 0 d'
  = fold_right (fun e acc => stock (snd e) + acc) 0 d - n.
Proof.
  revert d'. induction d as [|[k' v'] d IH]; simpl; intros d'; [discriminate|].
  destruct (String.eqb k' k).
  - intros [= <-]. simpl. lia.
  - destruct (Dict.modify k (decrement_stock n) d) as [d1|]; simpl;
      [|discriminate].
    intros [= <-]. simpl. rewrite (IH d1 eq_refl). lia.
Qed.

Lemma set_units k o (d : Dict.t Order) :
  Forall (fun e => 0 < quantity (snd e)) d ->
  fold_right (fun e acc => quantity (snd e) + acc) 0 (Dict.set k o d)
  <= fold_right (fun e acc => quantity (snd e) + acc) 0 d + quantity o.
Proof.
  induction 1 as [|[k' o'] d Hhd Htl IH]; simpl.
  - lia.
  - simpl in Hhd. destruct (String.eqb k' k); simpl; lia.
Qed.

(** The only reference the initial records hold as valid. *)
Lemma valid_reference r :
  Dict.get_default r false mock_prescriptions = true -> r = "RX12345".
Proof.
  unfold Dict.get_default, mock_prescriptions. cbn [Dict.get].
  destruct (String.eqb "RX12345" r) eqn:E1.
  - intros _. apply String.eqb_eq in E1. now symmetry.
  - destruct (String.eqb "RX67890" r); discriminate.
Qed.

(** An accepted order for a medication that requires a prescription gave
    a reference that the records hold as valid. *)
Lemma accepted_prescription s name q ref k item :
  first_failed_check s name q ref = None ->
  find_med name (inventory s) = Some (k, item) ->
  requires_prescription item = true ->
  exists r,
    upper_ref ref = Some r
    /\ Dict.get_default r false (prescriptions s) = true.
Proof.
  intros Hff Hf Hrx. apply all_checks_pass_iff in Hff.
  unfold all_checks_pass, checks in Hff. cbn [forallb fst] in Hff.
  repeat (apply andb_prop in Hff; destruct Hff as [? Hff]).
  unfold prescription_present, prescription_verified, needs_prescription in *.
  rewrite Hf, Hrx in *. cbn [implb] in *.
  destruct ref as [r0|]; [|discriminate].
  exists (PyStr.upper r0). split; [|assumption].
  unfold upper_ref.
  match goal with H : PyStr.truthy r0 = true |- _ => now rewrite H end.
Qed.

Lemma initial_kept : kept initial_store.
Proof.
  unfold kept. split; [|split; [reflexivity|split; [reflexivity|split]]].
  - unfold catalog_kept. simpl.
    repeat constructor; simpl; lia.
  - constructor.
  - unfold units_on_order. simpl. lia.
Qed.

Lemma run_kept (c : call) (s : Store) : kept s -> kept (snd (run c s)).
Proof.
  intros Hk.
  destruct c as [n|n|r|env name q ref|i];
    try (rewrite read_only by exact I; exact Hk).
  destruct Hk as (Hcat & Hdi & Hrx & Hord & Hsum).
  assert (Hnd : NoDup (Dict.keys (inventory s))).
  { rewrite (catalog_kept_keys s Hcat).
    apply distinct_keys_NoDup, mock_inventory_distinct. }
  simpl run.
  destruct (place_order_cases env name q ref s Hnd)
    as [(e & _ & ->)
       |[(reason & text & _ & _ & ->)
        |(k & item & m & inv' & _ & Hff & Hf & Hget & Hq & Hm & Hmod & ->)]];
    [now repeat split | now repeat split |].
  destruct (catalog_kept_get _ _ _ _ Hcat Hget) as (item0 & Hg0 & Hflag & Hst).
  unfold kept. cbn [snd]. repeat split; try assumption.
  - unfold catalog_kept. cbn [inventory].
    apply (modify_Forall2 same_medication k (decrement_stock m)
             (inventory s) inv' mock_inventory Hmod); [|exact Hcat].
    intros v w Hv (Hk1 & Hk2 & Hk3). rewrite Hget in Hv. injection Hv as <-.
    unfold same_medication. simpl in *. repeat split; auto; lia.
  - unfold orders_ok. cbn [orders]. apply set_Forall; [exact Hord|].
    unfold order_ok. cbn [fst snd new_order status quantity medication
      prescription_ref].
    split; [apply new_order_id_upper|]. split; [reflexivity|].
    split; [lia|]. exists item0. split; [exact Hg0|]. split; [lia|].
    intros Hreq. rewrite <- Hflag in Hreq.
    destruct (accepted_prescription s name q ref k item Hff Hf Hreq)
      as (r & -> & Hvalid).
    rewrite Hrx in Hvalid. now rewrite (valid_reference r Hvalid).
  - unfold total_stock, units_on_order in *. cbn [inventory orders].
    rewrite (modify_total_stock k m _ _ Hmod).
    assert (Hpos : Forall (fun e => 0 < quantity (snd e)) (orders s)).
    { eapply Forall_impl; [|exact Hord]. intros e He. apply He. }
    pose proof (set_units (new_order_id env)
                  (new_order env k m (upper_ref ref)) (orders s) Hpos) as Hu.
    cbn [new_order quantity] in Hu. lia.
Qed.

Lemma reachable_kept (s : Store) : reachable s -> kept s.
Proof.
  induction 1 as [|c s _ IH]; [apply initial_kept | now apply run_kept].
Qed.

Lemma run_all_reachable (cs : list call) (s : Store) :
  reachable s -> reachable (run_all cs s).
Proof.
  revert s. induction cs as [|c cs IH]; simpl; intros s Hs; [assumption|].
  apply IH. now apply reachable_call.
Qed.

(** The limit on printed integers is far above any stock count. *)
Lemma stock_below_limit (z : Z) : z <= 100 -> z < PyStr.str_digits_limit.
Proof.
  assert (H : 100 < PyStr.str_digits_limit)
    by (apply Z.ltb_lt; vm_compute; reflexivity).
  lia.
Qed.

Lemma reachable_stock_printable (s : Store) :
  reachable s ->
  Forall (fun e => stock (snd e) < PyStr.str_digits_limit) (inventory s).
Proof.
  intros Hs. destruct (reachable_kept s Hs) as (Hcat & _).
  unfold catalog_kept in Hcat.
  assert (H0 : Forall (fun e0 : string * InventoryItem =>
                         stock (snd e0) <= 100) mock_inventory)
    by (repeat constructor; simpl; lia).
  revert H0. induction Hcat as [|e e0 d d0 (_ & _ & Hst) _ IH];
    intros H0; constructor.
  - apply stock_below_limit. apply Forall_inv in H0. lia.
  - apply IH. now apply Forall_inv_tail in H0.
Qed.

End KeptFacts.

(* ------------------------------------------------------------------ *)
(** * How the calls compose *)

Section ComposeFacts.

Lemma get_In {V} (d : Dict.t V) k v : Dict.get k d = Some v -> In (k, v) d.
Proof.
  induction d as [|[k' v'] d IH]; simpl; [discriminate|].
  destruct (String.eqb k' k) eqn:E; [|auto].
  apply String.eqb_eq in E. subst k'. intros [= ->]. now left.
Qed.

(** [place_order] places the order exactly when it does not raise and
    every check passes. *)
Lemma placed_unless_raised env name q ref s :
  placed (place_order env name q ref s)
  = match place_order_raises s name q with
    | Some _ => false
    | None => all_checks_pass s name q ref
    end.
Proof.
  destruct (place_order_outcome env name q ref s)
    as [(e & -> & ->)
       |[(reason & text & -> & Hff & ->)
        | (k & item & n & inv' & -> & Hff & _ & _ & _ & _ & ->)]].
  - reflexivity.
  - destruct (all_checks_pass s name q ref) eqn:E; [|reflexivity].
    apply all_checks_pass_iff in E. congruence.
  - apply all_checks_pass_iff in Hff. now rewrite Hff.
Qed.

(** The checks, once the lookup and the quantity are known. *)
Lemma all_checks_pass_found s name q ref k item :
  find_med name (inventory s) = Some (k, item) ->
  all_checks_pass s name q ref
  = match py_int q with
    | Ok n =>
        (0 <? n) && (n <=? stock item)
        && implb (requires_prescription item)
                 match ref with
                 | Some r =>
                     PyStr.truthy r
                     && Dict.get_default (PyStr.upper r) false
                                         (prescriptions s)
                 | None => false
                 end
    | Raise _ => false
    end.
Proof.
  intros Hf.
  unfold all_checks_pass, checks, medication_exists, quantity_positive,
    sufficient_stock, prescription_present, prescription_verified,
    needs_prescription.
  rewrite Hf. cbn [forallb fst].
  destruct (py_int q) as [n|e]; [|reflexivity].
  destruct (0 <? n), (n <=? stock item), (requires_prescription item);
    cbn [andb implb]; try reflexivity;
    destruct ref as [r|]; cbn [andb]; try reflexivity;
    destruct (PyStr.truthy r); cbn [andb]; try reflexivity;
    now rewrite andb_true_r.
Qed.

Lemma all_checks_pass_not_found s name q ref :
  find_med name (inventory s) = None ->
  all_checks_pass s name q ref = false.
Proof.
  intros Hf. unfold all_checks_pass, checks, medication_exists.
  now rewrite Hf.
Qed.

(** When every check passes and the stock counts can be printed,
    [place_order] does not raise. *)
Lemma passing_does_not_raise s name q ref :
  Forall (fun e => stock (snd e) < PyStr.str_digits_limit) (inventory s) ->
  all_checks_pass s name q ref = true ->
  place_order_raises s name q = None.
Proof.
  intros Hsmall Hpass.
  destruct (find_med name (inventory s)) as [[k item]|] eqn:Hf.
  2:{ now rewrite all_checks_pass_not_found in Hpass. }
  rewrite (all_checks_pass_found _ _ _ _ _ _ Hf) in Hpass.
  unfold place_order_raises. rewrite Hf.
  destruct (py_int q) as [n|e] eqn:Hq; [|discriminate].
  apply andb_prop in Hpass. destruct Hpass as [Hpass _].
  apply andb_prop in Hpass. destruct Hpass as [Hpos Hle].
  apply Z.ltb_lt in Hpos. apply Z.leb_le in Hle.
  rewrite Forall_forall in Hsmall.
  pose proof (Hsmall _ (find_med_In _ _ _ _ Hf)) as Hk. simpl in Hk.
  destruct q as [|b|z|str|f]; try reflexivity.
  simpl in Hq. injection Hq as ->. unfold fstring_raises, PyStr.int_too_long.
  destruct (Z.leb_spec PyStr.str_digits_limit (Z.abs n)); [lia|reflexivity].
Qed.

(** In a store the program can reach, [place_order] places the order
    exactly when every check passes. *)
Lemma placed_iff env name q ref s :
  reachable s ->
  placed (place_order env name q ref s) = all_checks_pass s name q ref.
Proof.
  intros Hs. rewrite placed_unless_raised.
  destruct (all_checks_pass s name q ref) eqn:E.
  - now rewrite (passing_does_not_raise s name q ref
                   (reachable_stock_printable s Hs) E).
  - now destruct (place_order_raises s name q).
Qed.

(** In any store, an order is placed only when every check passes. *)
Lemma placed_passes env name q ref s :
  placed (place_order env name q ref s) = true ->
  all_checks_pass s name q ref = true.
Proof.
  rewrite placed_unless_raised.
  now destruct (place_order_raises s name q).
Qed.

(** With no repeated key, the stock update is a map over the entries. *)
Lemma modify_is_map {V} k (f : V -> V) (d d' : Dict.t V) :
  NoDup (Dict.keys d) ->
  Dict.modify k f d = Some d' ->
  d' = map (fun e => (fst e, if String.eqb (fst e) k then f (snd e)
                             else snd e)) d.
Proof.
  revert d'. induction d as [|[k' v'] d IH]; simpl; intros d' Hnd;
    [discriminate|].
  inversion Hnd as [|? ? Hnotin Hnd']; subst.
  destruct (String.eqb k' k) eqn:E.
  - intros [= <-]. f_equal. apply String.eqb_eq in E. subst k'.
    clear IH Hnd Hnd'. induction d as [|[k1 v1] d IH]; [reflexivity|].
    simpl in *. destruct (String.eqb k1 k) eqn:E1.
    + apply String.eqb_eq in E1. tauto.
    + f_equal. apply IH. tauto.
  - destruct (Dict.modify k f d) as [d1|]; simpl; [|discriminate].
    intros [= <-]. f_equal. now apply IH.
Qed.

(** The lookup looks at the names only. *)
Lemma find_loop_map {V W} (g : string -> V -> W) q (d : Dict.t V) found :
  find_loop q (map (fun e => (fst e, g (fst e) (snd e))) d)
            (option_map (fun e => (fst e, g (fst e) (snd e))) found)
  = option_map (fun e => (fst e, g (fst e) (snd e))) (find_loop q d found).
Proof.
  revert found. induction d as [|[name data] d IH]; simpl; intros found;
    [reflexivity|].
  destruct (String.eqb (PyStr.lower q) (PyStr.lower name)); [reflexivity|].
  replace (not_found_yet (option_map (fun e => (fst e, g (fst e) (snd e)))
                                     found))
    with (not_found_yet found) by now destruct found as [[? ?]|].
  destruct (PyStr.contains (PyStr.lower q) (PyStr.lower name)
            && not_found_yet found).
  - apply (IH (Some (name, data))).
  - apply IH.
Qed.

Lemma find_med_map {V W} (g : string -> V -> W) q (d : Dict.t V) :
  find_med q (map (fun e => (fst e, g (fst e) (snd e))) d)
  = option_map (fun e => (fst e, g (fst e) (snd e))) (find_med q d).
Proof.
  unfold find_med. pose proof (find_loop_map g q d None) as H.
  cbn [option_map] in H. rewrite H.
  destruct (find_loop q d None) as [[k v]|]; simpl; [|reflexivity].
  now destruct (PyStr.truthy k).
Qed.

(** Two tables with the same names in the same order give the same name
    for a query. *)
Lemma find_med_same_keys {V W} q (d : Dict.t V) (d' : Dict.t W) k v :
  Dict.keys d = Dict.keys d' ->
  NoDup (Dict.keys d') ->
  find_med q d = Some (k, v) ->
  exists v', find_med q d' = Some (k, v') /\ Dict.get k d' = Some v'.
Proof.
  intros Hkeys Hnd Hf.
  pose proof (find_med_map (fun _ (_ : V) => tt) q d) as H1.
  pose proof (find_med_map (fun _ (_ : W) => tt) q d') as H2.
  cbv beta in H1, H2.
  assert (Hmap : map (fun e : string * V => (fst e, tt)) d
                 = map (fun e : string * W => (fst e, tt)) d').
  { unfold Dict.keys in Hkeys.
    rewrite <- (map_map fst (fun k => (k, tt)) d).
    rewrite <- (map_map fst (fun k => (k, tt)) d').
    now rewrite Hkeys. }
  rewrite Hmap, H2, Hf in H1. simpl in H1.
  destruct (find_med q d') as [[k' v']|] eqn:E; [|discriminate].
  simpl in H1. injection H1 as ->. exists v'. split; [reflexivity|].
  apply NoDup_keys_get; [assumption | now apply find_med_In in E].
Qed.

(** One call lowers or keeps each stock count and keeps each flag. *)
Lemma run_stock_step c s k item :
  reachable s ->
  Dict.get k (inventory s) = Some item ->
  exists item',
    Dict.get k (inventory (snd (run c s))) = Some item'
    /\ requires_prescription item' = requires_prescription item
    /\ 0 <= stock item' <= stock item.
Proof.
  intros Hs Hget.
  assert (Hpos : 0 <= stock item).
  { destruct (reachable_invariant s Hs) as [_ Hnn].
    unfold stock_nonneg in Hnn. rewrite Forall_forall in Hnn.
    apply (Hnn (k, item)). now apply get_In. }
  destruct c as [n|n|r|env name q ref|i];
    try (rewrite read_only by exact I; exists item; repeat split;
         (assumption || lia)).
  pose proof (distinct_keys_NoDup _ (reachable_distinct s Hs)) as Hnd.
  simpl run.
  destruct (place_order_cases env name q ref s Hnd)
    as [(e & _ & ->)
       |[(reason & text & _ & _ & ->)
        |(k0 & item0 & m & inv' & _ & _ & _ & Hget0 & _ & Hm & Hmod & ->)]].
  - exists item. repeat split; (assumption || lia).
  - exists item. repeat split; (assumption || lia).
  - cbn [snd inventory].
    destruct (modify_present k0 item0 (decrement_stock m) _ Hget0)
      as (d' & Hm' & Hnew & Hother & _).
    rewrite Hmod in Hm'. injection Hm' as <-.
    destruct (string_dec k k0) as [->|Hne].
    + rewrite Hget in Hget0. injection Hget0 as <-.
      exists (decrement_stock m item). simpl. repeat split; (assumption || lia).
    + exists item. rewrite (Hother k Hne). repeat split; (assumption || lia).
Qed.

Lemma run_all_stock cs s k item :
  reachable s ->
  Dict.get k (inventory s) = Some item ->
  exists item',
    Dict.get k (inventory (run_all cs s)) = Some item'
    /\ requires_prescription item' = requires_prescription item
    /\ 0 <= stock item' <= stock item.
Proof.
  revert s item. induction cs as [|c cs IH]; simpl; intros s item Hs Hget.
  - exists item. repeat split; try assumption; try lia.
    destruct (run_stock_step (CheckStock "") s k item Hs Hget)
      as (item' & Hg & _ & Hb).
    rewrite read_only in Hg by exact I. rewrite Hget in Hg.
    injection Hg as <-. lia.
  - destruct (run_stock_step c s k item Hs Hget) as (item1 & Hg1 & Hf1 & Hb1).
    destruct (IH _ item1 (reachable_call c s Hs) Hg1)
      as (item' & Hg & Hf & Hb).
    exists item'. repeat split; try assumption; try congruence; lia.
Qed.

Lemma run_all_catalog cs s k item :
  reachable s ->
  Dict.get k (inventory s) = Some item ->
  Dict.keys (inventory (run_all cs s)) = Dict.keys (inventory s)
  /\ exists item',
       Dict.get k (inventory (run_all cs s)) = Some item'
       /\ requires_prescription item' = requires_prescription item
       /\ 0 <= stock item' <= stock item.
Proof.
  intros Hs Hget. split.
  - destruct (reachable_invariant s Hs) as [(-> & _) _].
    destruct (reachable_invariant _ (run_all_reachable cs s Hs))
      as [(-> & _) _].
    reflexivity.
  - now apply run_all_stock.
Qed.

End ComposeFacts.

(* ================================================================== *)
(** * The claims *)

(** C1.  All or nothing.  Whenever some validation step of [place_order]
    fails (medication not found, quantity not a positive number,
    insufficient stock, prescription missing or invalid), the store the
    call leaves is the store it was given: no stock is decremented and no
    order is created.  When the call returns, its result has
    [order_placed] false and the error flag set, and it returns unless
    [place_order_raises] names an exception.  That is where the code
    departs from the claim: the first line of [place_order] formats the
    quantity into a log message before any check, which raises
    [ValueError] for an integer of more than 4300 digits; an order of
    10^4300 units of Paracetamol 500mg Tablets fails the stock check and
    is answered with that exception, not with a result.  An order of one
    unit of Ibuprofen 200mg Tablets, whose stock is 0, is refused for
    insufficient stock and leaves the initial store as it was. *)
Theorem place_order_all_or_nothing :
  (forall env s medication_name quantity prescription_ref,
      all_checks_pass s medication_name quantity prescription_ref = false ->
      snd (place_order env medication_name quantity prescription_ref s) = s
      /\ (place_order_raises s medication_name quantity = None ->
          exists r,
            place_order env medication_name quantity prescription_ref s
              = (Returned r, s)
            /\ field "order_placed" r = Some (VBool false)
            /\ is_error r = true)
      /\ (forall e,
             place_order_raises s medication_name quantity = Some e ->
             place_order env medication_name quantity prescription_ref s
               = (Raised e, s)))
  /\ (forall env,
         all_checks_pass initial_store "Paracetamol 500mg Tablets"
                         (VInt (10 ^ 4300)) None = false
         /\ place_order env "Paracetamol 500mg Tablets" (VInt (10 ^ 4300))
                        None initial_store
            = (Raised ValueError, initial_store))
  /\ (forall env,
         exists r,
           place_order env "Ibuprofen 200mg Tablets" (VInt 1) None
                       initial_store
             = (Returned r, initial_store)
           /\ field "order_placed" r = Some (VBool false)
           /\ field "reason" r = Some (VStr "Insufficient stock")
           /\ is_error r = true).
Proof.
  split; [|split].
  - intros env s name q ref Hfail.
    destruct (place_order_outcome env name q ref s)
      as [(e & Er & ->)
         |[(reason & text & Er & _ & ->)
          | (k & item & n & inv' & _ & E & _)]].
    + split; [reflexivity|]. split; [congruence|].
      intros e' He'. congruence.
    + split; [reflexivity|]. split; [|congruence].
      intros _. eexists. split; [reflexivity|]. now split.
    + apply all_checks_pass_iff in E. congruence.
  - intros env. split; vm_compute; reflexivity.
  - intros env. eexists. split; [reflexivity|]. now repeat split.
Qed.

Lemma place_order_all_or_nothing_witness :
  all_checks_pass initial_store "Paracetamol 500mg Tablets" (VStr "two") None
    = false
  /\ snd (place_order sample_env "Paracetamol 500mg Tablets" (VStr "two")
                      None initial_store) = initial_store
  /\ exists r,
       place_order sample_env "Paracetamol 500mg Tablets" (VStr "two") None
                   initial_store
         = (Returned r, initial_store)
       /\ field "order_placed" r = Some (VBool false)
       /\ is_error r = true.
Proof.
  split; [reflexivity|].
  destruct (proj1 place_order_all_or_nothing sample_env initial_store
                  "Paracetamol 500mg Tablets" (VStr "two") None eq_refl)
    as (H1 & H2 & _).
  split; [exact H1|]. apply H2. reflexivity.
Defined.

(** C3.  Order of the checks.  When [place_order] returns, the reason it
    gives is the first step that fails in the order: medication exists,
    quantity is a positive integer, stock suffices, and, for a medication
    that requires a prescription, the reference is present and then
    verified; with no failed step the result carries no reason.  It
    returns unless [place_order_raises] names an exception, and that is
    where the code departs from the claim: the quantity is formatted into
    a log message before the first check, so for an unknown medication
    and a quantity of 10^4300 the first failed check is the medication,
    and the call raises [ValueError] instead of returning that reason.
    Amoxicillin 250mg Capsules, quantity 2, with the known-invalid
    prescription RX67890 is refused with reason Prescription invalid. *)
Theorem place_order_reports_first_failed_check :
  (forall env s medication_name quantity prescription_ref,
      place_order_raises s medication_name quantity = None ->
      exists r s',
        place_order env medication_name quantity prescription_ref s
          = (Returned r, s')
        /\ field "reason" r
           = option_map VStr
               (first_failed_check s medication_name quantity
                                   prescription_ref))
  /\ (forall env,
         first_failed_check initial_store "Aspirin" (VInt (10 ^ 4300)) None
           = Some "Medication not found"
         /\ place_order env "Aspirin" (VInt (10 ^ 4300)) None initial_store
            = (Raised ValueError, initial_store))
  /\ (forall env,
         exists r,
           place_order env "Amoxicillin 250mg Capsules" (VInt 2)
                       (Some "RX67890") initial_store
             = (Returned r, initial_store)
           /\ field "reason" r = Some (VStr "Prescription invalid")
           /\ is_error r = true).
Proof.
  split; [|split].
  - intros env s name q ref Hr.
    destruct (place_order_outcome env name q ref s)
      as [(e & Er & _)
         |[(reason & text & _ & -> & ->)
          | (k & item & n & inv' & _ & -> & _ & _ & _ & _ & ->)]];
      [congruence | |]; do 2 eexists; split; reflexivity.
  - intros env. split; vm_compute; reflexivity.
  - intros env. eexists. split; [reflexivity|]. now split.
Qed.

Lemma place_order_reports_first_failed_check_witness :
  exists r s',
    place_order sample_env "Lisinopril" (VStr "0") (Some "RX12345")
                initial_store
      = (Returned r, s')
    /\ field "reason" r
       = option_map VStr
           (first_failed_check initial_store "Lisinopril" (VStr "0")
                               (Some "RX12345")).
Proof.
  apply (proj1 place_order_reports_first_failed_check sample_env
               initial_store "Lisinopril" (VStr "0") (Some "RX12345")).
  reflexivity.
Defined.

(** C7.  Exceptions.  Four of the five tools return a result whatever
    their argument and the store, and [place_order] returns one unless
    [place_order_raises] names an exception; a returned result has its
    error flag set exactly when the call did not succeed.  But
    [place_order] does raise: for a quantity that is an integer of more
    than 4300 digits, formatting it into the first log message raises
    [ValueError] before the [try]; and for a quantity that is an infinite
    float, [int(quantity)] raises [OverflowError], which the
    [except (ValueError, TypeError)] does not catch.  In both cases the
    store is left as it was. *)
Theorem handlers_return_unless_quantity_raises :
  (forall (c : call) (s : Store),
      match raises c s with
      | None =>
          exists r,
            fst (run c s) = Returned r
            /\ is_error r = negb (succeeded c r)
      | Some e => run c s = (Raised e, s)
      end)
  /\ (forall env,
         place_order env "Paracetamol 500mg Tablets" (VInt (10 ^ 4300)) None
                     initial_store
         = (Raised ValueError, initial_store))
  /\ (forall env,
         place_order env "Paracetamol 500mg Tablets" (VFloat (FInf false))
                     None initial_store
         = (Raised OverflowError, initial_store)).
Proof.
  split; [|split].
  - intros [name|name|ref|env name q ref|id] s; simpl raises; simpl run.
    + unfold check_stock.
      destruct (find_med name (inventory s)) as [[k item]|].
      * destruct (0 <? stock item); eexists; split; reflexivity.
      * eexists; split; reflexivity.
    + unfold get_drug_info.
      destruct (find_med name (drug_info s)) as [[k info]|];
        eexists; split; reflexivity.
    + unfold verify_prescription.
      destruct (Dict.get_default _ false (prescriptions s));
        eexists; split; reflexivity.
    + destruct (place_order_outcome env name q ref s)
        as [(e & -> & ->)
           |[(reason & text & -> & _ & ->)
            | (k & item & n & inv' & -> & _ & _ & _ & _ & _ & ->)]];
        [reflexivity | |]; eexists; split; reflexivity.
    + unfold check_order_status.
      destruct (Dict.get (PyStr.upper id) (orders s));
        eexists; split; reflexivity.
  - intros env. vm_compute. reflexivity.
  - intros env. vm_compute. reflexivity.
Qed.

(** C8.  Stock never negative.  Every stock count of the initial catalogue
    is zero or more, and so is every stock count of every store the
    program can reach and of the store any further call leaves.  Only
    [place_order] writes: each of the other four tools leaves the store
    as it found it. *)
Theorem stock_never_negative :
  stock_nonneg initial_store
  /\ (forall s c,
         reachable s -> stock_nonneg s /\ stock_nonneg (snd (run c s)))
  /\ (forall s c,
         match c with PlaceOrder _ _ _ _ => False | _ => True end ->
         snd (run c s) = s).
Proof.
  split; [apply initial_invariant|]. split.
  - intros s c Hs. split.
    + now apply reachable_invariant.
    + apply (reachable_invariant _ (reachable_call c s Hs)).
  - intros s c Hc. now apply read_only.
Qed.

Lemma stock_never_negative_witness :
  stock_nonneg
    (snd (run (PlaceOrder sample_env "Paracetamol 500mg Tablets" (VInt 100)
                          None)
              (snd (run (PlaceOrder sample_env "Lisinopril" (VInt 75)
                                    (Some "rx12345"))
                        initial_store))))
  /\ snd (run (CheckStock "Lisinopril") initial_store) = initial_store.
Proof.
  split.
  - apply (proj1 (proj2 stock_never_negative)).
    apply reachable_call. apply reachable_initial.
  - apply (proj2 (proj2 stock_never_negative)). exact I.
Defined.

(** C9.  Case-insensitive prescription check.  [verify_prescription] looks
    the upper-cased reference up as an exact key: two references that
    differ in letter case only get the same result, the verified flag is
    the record stored under the upper-cased reference (false when there is
    none), and the lower-case rx12345 is verified because RX12345 is a
    valid record. *)
Theorem verify_prescription_ignores_case :
  (forall s r1 r2,
      PyStr.lower r1 = PyStr.lower r2 ->
      verify_prescription r1 s = verify_prescription r2 s)
  /\ (forall s ref,
         exists r,
           verify_prescription ref s = (Returned r, s)
           /\ field "verified" r
              = Some (VBool (Dict.get_default (PyStr.upper ref) false
                                              (prescriptions s))))
  /\ (exists r,
         verify_prescription "rx12345" initial_store
           = (Returned r, initial_store)
         /\ field "verified" r = Some (VBool true)
         /\ is_error r = false).
Proof.
  split; [|split].
  - intros s r1 r2 H. apply same_lower_iff_same_upper in H.
    unfold verify_prescription. now rewrite H.
  - intros s ref. unfold verify_prescription.
    destruct (Dict.get_default _ false (prescriptions s));
      eexists; split; reflexivity.
  - eexists. split; [reflexivity|]. now split.
Qed.

Lemma verify_prescription_ignores_case_witness :
  PyStr.lower "rX12345" = PyStr.lower "Rx12345"
  /\ verify_prescription "rX12345" initial_store
     = verify_prescription "Rx12345" initial_store.
Proof.
  split; [reflexivity|].
  apply (proj1 verify_prescription_ignores_case). reflexivity.
Defined.

(** C4.  Stock report.  For every medication of the catalogue, in any
    store the program can reach, [check_stock] called with the name of
    the medication reports [in_stock] true exactly when the stock count
    of that medication is above 0, and reports the
    [requires_prescription] flag the catalogue holds for it. *)
Theorem check_stock_reports_catalog :
  forall s m item,
    reachable s ->
    In (m, item) (inventory s) ->
    exists r,
      check_stock m s = (Returned r, s)
      /\ field "in_stock" r = Some (VBool (0 <? stock item))
      /\ (field "in_stock" r = Some (VBool true) <-> 0 < stock item)
      /\ field "requires_prescription" r
         = Some (VBool (requires_prescription item)).
Proof.
  intros s m item Hs Hin. unfold check_stock.
  rewrite (find_med_self _ _ _ (reachable_distinct s Hs) Hin).
  destruct (Z.ltb_spec 0 (stock item)); eexists;
    (split; [reflexivity|]); repeat split; try reflexivity;
    unfold field; simpl; intros; (lia || congruence || auto).
Qed.

Lemma check_stock_reports_catalog_witness :
  exists r,
    check_stock "Ibuprofen 200mg Tablets" initial_store
      = (Returned r, initial_store)
    /\ field "in_stock" r = Some (VBool (0 <? 0))
    /\ (field "in_stock" r = Some (VBool true) <-> 0 < 0)
    /\ field "requires_prescription" r = Some (VBool false).
Proof.
  apply (check_stock_reports_catalog initial_store
           "Ibuprofen 200mg Tablets" (mkItem 0 false)).
  - apply reachable_initial.
  - simpl. auto.
Defined.

(** C5, as stated, fails: the result for a matched medication that is out
    of stock has no [stock_count] field.  Ibuprofen 200mg Tablets is in
    the catalogue with stock 0, and the result of [check_stock] for it
    holds [requires_prescription], [in_stock] and [medication_name]
    only. *)
Lemma check_stock_out_of_stock_has_no_count :
  find_med "Ibuprofen 200mg Tablets" (inventory initial_store)
    = Some ("Ibuprofen 200mg Tablets", mkItem 0 false)
  /\ exists r,
       check_stock "Ibuprofen 200mg Tablets" initial_store
         = (Returned r, initial_store)
       /\ has_field "stock_count" r = false
       /\ has_field "medication_found" r = false.
Proof.
  split; [reflexivity|].
  eexists. split; [reflexivity|]. now split.
Qed.

(** C5, amended.  For every query that matches a medication of the
    inventory, the result of [check_stock] holds the matched name
    ([medication_name], which is how a found medication shows), the
    in-stock indication ([in_stock]) and the [requires_prescription]
    flag; it holds the stock count ([stock_count]) when the medication is
    in stock and has no such field when it is out of stock.  The field
    [medication_found] is not part of the result of a matched query. *)
Theorem check_stock_fields :
  forall s query k item,
    find_med query (inventory s) = Some (k, item) ->
    exists r,
      check_stock query s = (Returned r, s)
      /\ field "medication_name" r = Some (VStr k)
      /\ field "in_stock" r = Some (VBool (0 <? stock item))
      /\ field "requires_prescription" r
         = Some (VBool (requires_prescription item))
      /\ field "stock_count" r
         = (if 0 <? stock item then Some (VInt (stock item)) else None)
      /\ field "medication_found" r = None.
Proof.
  intros s query k item Hf. unfold check_stock. rewrite Hf.
  destruct (0 <? stock item); eexists; (split; [reflexivity|]);
    now repeat split.
Qed.

Lemma check_stock_fields_witness :
  exists r,
    check_stock "amox" initial_store = (Returned r, initial_store)
    /\ field "medication_name" r = Some (VStr "Amoxicillin 250mg Capsules")
    /\ field "in_stock" r = Some (VBool (0 <? 50))
    /\ field "requires_prescription" r = Some (VBool true)
    /\ field "stock_count" r = (if 0 <? 50 then Some (VInt 50) else None)
    /\ field "medication_found" r = None.
Proof.
  apply (check_stock_fields initial_store "amox"
           "Amoxicillin 250mg Capsules" (mkItem 50 true)).
  reflexivity.
Defined.

(** C6.  Two-phase lookup.  [PyStr.contains] is the substring relation.
    On a table whose keys are not empty the lookup loop of the handlers
    returns the first key equal to the query up to letter case when there
    is one, otherwise the first key that contains the query up to letter
    case, otherwise nothing.  In every store the program can reach the
    three handlers act on what this lookup returns: [check_stock] reports
    the name, stock and flag of that entry of the inventory, or not
    found; [get_drug_info] builds its text from that entry of the drug
    information, or reports not found; [place_order] (when the quantity
    can be formatted) refuses with Medication not found when the lookup
    finds nothing, and otherwise checks the stock of that entry, names it
    in the refusal, and on success records the order for it and lowers
    its stock.  An exact match wins over a substring match that comes
    earlier in the table; among substring matches the first wins. *)
Theorem lookup_is_two_phase :
  (forall sub text,
      PyStr.contains sub text = true <-> exists a b, text = a ++ sub ++ b)
  /\ (forall (V : Type) (table : Dict.t V) (query : string),
         Forall (fun k => k <> "") (Dict.keys table) ->
         find_med query table = two_phase_lookup query table)
  /\ (forall s query,
         reachable s ->
         match two_phase_lookup query (inventory s) with
         | Some (k, item) =>
             exists r,
               check_stock query s = (Returned r, s)
               /\ field "medication_name" r = Some (VStr k)
               /\ field "in_stock" r = Some (VBool (0 <? stock item))
               /\ field "requires_prescription" r
                  = Some (VBool (requires_prescription item))
         | None =>
             exists r,
               check_stock query s = (Returned r, s)
               /\ field "medication_found" r = Some (VBool false)
               /\ field "medication_name" r = None
         end)
  /\ (forall s query,
         reachable s ->
         match two_phase_lookup query (drug_info s) with
         | Some (k, info) =>
             exists r,
               get_drug_info query s = (Returned r, s)
               /\ field "info_found" r = Some (VBool true)
               /\ feedback r
                  = Some (VStr
                      ("Information for '" ++ k ++ "':" ++ newline
                       ++ "- Usage: "
                       ++ Dict.get_default "usage" "N/A" info ++ newline
                       ++ "- Common Side Effects: "
                       ++ Dict.get_default "side_effects" "N/A" info
                       ++ newline
                       ++ "- Contraindications: "
                       ++ Dict.get_default "contraindications" "N/A" info
                       ++ newline
                       ++ "- Notes: "
                       ++ Dict.get_default "notes" "N/A" info
                       ++ newline ++ newline
                       ++ "**Disclaimer:** This is not medical advice. Always consult your doctor or pharmacist for medical guidance."))
         | None =>
             exists r,
               get_drug_info query s = (Returned r, s)
               /\ field "info_found" r = Some (VBool false)
               /\ feedback r
                  = Some (VStr
                      ("Sorry, I don't have detailed information available for '"
                       ++ query ++ "'."))
         end)
  /\ (forall s query env q ref,
         reachable s ->
         fstring_raises q = None ->
         match two_phase_lookup query (inventory s) with
         | None =>
             place_order env query q ref s
             = (Returned (order_refused "Medication not found"
                  ("Cannot place order. Medication '" ++ query
                   ++ "' not found.")), s)
         | Some (k, item) =>
             (forall n,
                 py_int q = Ok n -> 0 < n -> stock item < n ->
                 place_order env query q ref s
                 = (Returned (order_refused "Insufficient stock"
                      ("Cannot place order. Insufficient stock for '" ++ k
                       ++ "'. Available: " ++ PyStr.str_of_int (stock item)
                       ++ ".")), s))
             /\ (placed (place_order env query q ref s) = true ->
                 exists n,
                   py_int q = Ok n
                   /\ Dict.get (new_order_id env)
                               (orders (snd (place_order env query q ref s)))
                      = Some (new_order env k n (upper_ref ref))
                   /\ Dict.get k
                        (inventory (snd (place_order env query q ref s)))
                      = Some (decrement_stock n item))
         end)
  /\ find_med "aspirin" [("Aspirin Plus", 1); ("Aspirin", 2)]
     = Some ("Aspirin", 2)
  /\ find_med "tablets" mock_inventory
     = Some ("Paracetamol 500mg Tablets", mkItem 100 false)
  /\ find_med "250MG" mock_inventory
     = Some ("Amoxicillin 250mg Capsules", mkItem 50 true)
  /\ find_med "aspirin" mock_inventory = None.
Proof.
  split; [exact contains_spec|].
  split; [intros V table query Hne; now apply find_med_two_phase|].
  assert (Hinv : forall s query, reachable s ->
             find_med query (inventory s)
             = two_phase_lookup query (inventory s)).
  { intros s query Hs. apply find_med_two_phase.
    now apply reachable_distinct. }
  split; [|split; [|split; [|repeat split]]].
  - intros s query Hs. rewrite <- (Hinv s query Hs). unfold check_stock.
    destruct (find_med query (inventory s)) as [[k item]|].
    + destruct (0 <? stock item); eexists; (split; [reflexivity|]);
        now repeat split.
    + eexists. split; [reflexivity|]. now split.
  - intros s query Hs.
    assert (Hinfo : find_med query (drug_info s)
                    = two_phase_lookup query (drug_info s)).
    { apply find_med_two_phase.
      destruct (reachable_invariant s Hs) as [(_ & -> & _) _].
      apply mock_drug_info_distinct. }
    rewrite <- Hinfo. unfold get_drug_info.
    destruct (find_med query (drug_info s)) as [[k info]|];
      eexists; (split; [reflexivity|]); now split.
  - intros s query env q ref Hs Hfs. rewrite <- (Hinv s query Hs).
    destruct (find_med query (inventory s)) as [[k item]|] eqn:Hf.
    + split.
      * intros n Hq Hpos Hlt. unfold place_order, quantity_int_of.
        rewrite Hfs, Hf, Hq.
        destruct (Z.leb_spec n 0); [lia|].
        destruct (Z.ltb_spec (stock item) n); [reflexivity|lia].
      * intros Hplaced.
        pose proof (distinct_keys_NoDup _ (reachable_distinct s Hs)) as Hnd.
        destruct (place_order_cases env query q ref s Hnd)
          as [(e & _ & E)
             |[(reason & text & _ & _ & E)
              |(k0 & item0 & n & inv' & _ & _ & Hf0 & Hget & Hq & _ & Hmod
                & E)]];
          rewrite E in *; [discriminate | discriminate |].
        rewrite Hf in Hf0. injection Hf0 as <- <-.
        destruct (modify_present k item (decrement_stock n) _ Hget)
          as (d' & Hm' & Hnew & _).
        rewrite Hmod in Hm'. injection Hm' as <-.
        exists n. cbn [snd orders inventory].
        split; [exact Hq|]. split; [apply get_set_same | exact Hnew].
    + unfold place_order. now rewrite Hfs, Hf.
Qed.

Lemma lookup_is_two_phase_witness :
  Forall (fun k => k <> "") (Dict.keys mock_drug_info)
  /\ find_med "10MG" mock_drug_info = two_phase_lookup "10MG" mock_drug_info
  /\ two_phase_lookup "10MG" mock_drug_info
     = option_map (fun info => ("Lisinopril 10mg Tablets", info))
                  (Dict.get "Lisinopril 10mg Tablets" mock_drug_info)
  /\ (exists r,
         check_stock "250mg" initial_store = (Returned r, initial_store)
         /\ field "medication_name" r
            = Some (VStr "Amoxicillin 250mg Capsules")
         /\ field "in_stock" r = Some (VBool (0 <? 50))
         /\ field "requires_prescription" r = Some (VBool true))
  /\ fstring_raises (VInt 60) = None
  /\ place_order sample_env "aspirin" (VInt 60) None initial_store
     = (Returned (order_refused "Medication not found"
          "Cannot place order. Medication 'aspirin' not found."),
        initial_store)
  /\ place_order sample_env "250mg" (VInt 60) None initial_store
     = (Returned (order_refused "Insufficient stock"
          "Cannot place order. Insufficient stock for 'Amoxicillin 250mg Capsules'. Available: 50."),
        initial_store).
Proof.
  assert (H : Forall (fun k => k <> "") (Dict.keys mock_drug_info))
    by (repeat constructor; discriminate).
  destruct lookup_is_two_phase as (_ & H2 & H3 & _ & H5 & _).
  split; [exact H|]. split; [exact (H2 _ mock_drug_info "10MG" H)|].
  split; [reflexivity|].
  split; [exact (H3 initial_store "250mg" reachable_initial)|].
  split; [reflexivity|].
  split.
  - exact (H5 initial_store "aspirin" sample_env (VInt 60) None
              reachable_initial eq_refl).
  - apply (proj1 (H5 initial_store "250mg" sample_env (VInt 60) None
                     reachable_initial eq_refl) 60); [reflexivity | lia | simpl; lia].
Defined.

(** C2.  A successful order.  The order id is the first eight characters
    of the uuid text in upper case.  When every validation step passes,
    in any store the program can reach, [place_order] returns
    [order_placed] true with that id; the store it leaves holds under the
    id an order with status Processing, the matched medication and the
    quantity asked for, every other order as before, the stock of the
    matched medication lowered by exactly the quantity and every other
    stock as before; and [check_order_status] with the returned id then
    finds the order and reports status Processing and that quantity.  In
    particular Amoxicillin 250mg Capsules, quantity 2, prescription
    RX12345 is accepted in the initial store and takes the stock from 50
    to 48; with the uuid text 3f2a9c1b-... the id is 3F2A9C1B. *)
Theorem place_order_success :
  (forall head tail now,
      String.length head = 8%nat ->
      new_order_id (mkEnv (head ++ tail) now) = PyStr.upper head)
  /\ (forall env s medication_name q ref,
      reachable s ->
      all_checks_pass s medication_name q ref = true ->
      exists found_med item n r s' order r2,
        find_med medication_name (inventory s) = Some (found_med, item)
        /\ py_int q = Ok n
        /\ place_order env medication_name q ref s = (Returned r, s')
        /\ field "order_placed" r = Some (VBool true)
        /\ field "order_id" r = Some (VStr (new_order_id env))
        /\ is_error r = false
        /\ Dict.get (new_order_id env) (orders s') = Some order
        /\ status order = "Processing"
        /\ quantity order = n
        /\ medication order = found_med
        /\ (forall id, id <> new_order_id env ->
                       Dict.get id (orders s') = Dict.get id (orders s))
        /\ Dict.get found_med (inventory s) = Some item
        /\ Dict.get found_med (inventory s')
           = Some (mkItem (stock item - n) (requires_prescription item))
        /\ (forall k, k <> found_med ->
                      Dict.get k (inventory s') = Dict.get k (inventory s))
        /\ check_order_status (new_order_id env) s' = (Returned r2, s')
        /\ field "status_found" r2 = Some (VBool true)
        /\ feedback r2
           = Some (VStr ("Order " ++ new_order_id env
                         ++ " Status: Processing. Placed for "
                         ++ PyStr.str_of_int n ++ "x '" ++ found_med
                         ++ "'.")))
  /\ (forall env,
         exists r s',
           place_order env "Amoxicillin 250mg Capsules" (VInt 2)
                       (Some "RX12345") initial_store
             = (Returned r, s')
           /\ field "order_placed" r = Some (VBool true)
           /\ Dict.get "Amoxicillin 250mg Capsules" (inventory initial_store)
              = Some (mkItem 50 true)
           /\ Dict.get "Amoxicillin 250mg Capsules" (inventory s')
              = Some (mkItem 48 true))
  /\ place_order (mkEnv "3f2a9c1b-7d4e-4a8b-9c6d-1e2f3a4b5c6d"
                        "2025-01-01T10:00:00")
                 "Amoxicillin 250mg Capsules" (VInt 2) (Some "RX12345")
                 initial_store
     = (Returned
          (mkToolResult
             [ ("order_placed", VBool true); ("order_id", VStr "3F2A9C1B") ]
             [ ("feedback",
                VStr "Order placed successfully! Your Order ID is 3F2A9C1B. Current status: Processing.") ]),
        mkStore
          [ ("Paracetamol 500mg Tablets", mkItem 100 false);
            ("Amoxicillin 250mg Capsules", mkItem 48 true);
            ("Ibuprofen 200mg Tablets", mkItem 0 false);
            ("Lisinopril 10mg Tablets", mkItem 75 true) ]
          mock_drug_info
          [ ("3F2A9C1B",
             mkOrder "Amoxicillin 250mg Capsules" 2 (Some "RX12345")
                     "Processing" "2025-01-01T10:00:00") ]
          mock_prescriptions)
  /\ fst (check_order_status "3F2A9C1B"
            (snd (place_order (mkEnv "3f2a9c1b-7d4e-4a8b-9c6d-1e2f3a4b5c6d"
                                     "2025-01-01T10:00:00")
                              "Amoxicillin 250mg Capsules" (VInt 2)
                              (Some "RX12345") initial_store)))
     = Returned
         (mkToolResult
            [ ("status_found", VBool true) ]
            [ ("feedback",
               VStr "Order 3F2A9C1B Status: Processing. Placed for 2x 'Amoxicillin 250mg Capsules'.") ]).
Proof.
  split; [|split; [|split; [|split]]].
  - intros head tail now Hlen. unfold new_order_id, PyStr.take. simpl uuid4.
    f_equal.
    do 9 (destruct head as [|? head]; try discriminate Hlen).
    cbn [append String.substring]. now destruct tail.
  - intros env s name q ref Hs Hpass.
    pose proof (passing_does_not_raise s name q ref
                  (reachable_stock_printable s Hs) Hpass) as Hnr.
    apply all_checks_pass_iff in Hpass.
    pose proof (distinct_keys_NoDup _ (reachable_distinct s Hs)) as Hnd.
    destruct (place_order_cases env name q ref s Hnd)
      as [(e & E & _)
         |[(reason & text & _ & E & _)
          | (k & item & n & inv' & _ & _ & Hf & Hget & Hq & Hn & Hmod & Hp)]];
      [congruence | congruence |].
    destruct (modify_present k item (decrement_stock n) _ Hget)
      as (d' & Hm' & Hnew & Hother & _).
    rewrite Hmod in Hm'. injection Hm' as <-.
    exists k, item, n. do 2 eexists. exists (new_order env k n (upper_ref ref)).
    eexists.
    split; [exact Hf|]. split; [exact Hq|]. split; [exact Hp|].
    split; [reflexivity|]. split; [reflexivity|]. split; [reflexivity|].
    cbn [orders inventory].
    split; [apply get_set_same|].
    split; [reflexivity|]. split; [reflexivity|]. split; [reflexivity|].
    split; [intros id Hid; now apply get_set_other|].
    split; [exact Hget|]. split; [exact Hnew|]. split; [exact Hother|].
    unfold check_order_status. cbn [orders].
    rewrite new_order_id_upper, get_set_same.
    split; [reflexivity|]. split; reflexivity.
  - intros env. do 2 eexists. split; [reflexivity|]. now repeat split.
  - reflexivity.
  - reflexivity.
Qed.

Lemma place_order_success_witness :
  new_order_id (mkEnv ("deadbeef" ++ "-12ab-4cd3") "2025-06-30T08:15:00")
  = "DEADBEEF"
  /\ exists found_med item n r s' order r2,
    find_med "lisinopril" (inventory initial_store) = Some (found_med, item)
    /\ py_int (VStr " 3 ") = Ok n
    /\ place_order sample_env "lisinopril" (VStr " 3 ") (Some "rx12345")
                   initial_store
       = (Returned r, s')
    /\ field "order_placed" r = Some (VBool true)
    /\ field "order_id" r = Some (VStr "3F2A9C1B")
    /\ is_error r = false
    /\ Dict.get "3F2A9C1B" (orders s') = Some order
    /\ status order = "Processing"
    /\ quantity order = n
    /\ medication order = found_med
    /\ (forall id, id <> "3F2A9C1B" ->
                   Dict.get id (orders s')
                   = Dict.get id (orders initial_store))
    /\ Dict.get found_med (inventory initial_store) = Some item
    /\ Dict.get found_med (inventory s')
       = Some (mkItem (stock item - n) (requires_prescription item))
    /\ (forall k, k <> found_med ->
                  Dict.get k (inventory s')
                  = Dict.get k (inventory initial_store))
    /\ check_order_status "3F2A9C1B" s' = (Returned r2, s')
    /\ field "status_found" r2 = Some (VBool true)
    /\ feedback r2
       = Some (VStr ("Order " ++ "3F2A9C1B"
                     ++ " Status: Processing. Placed for "
                     ++ PyStr.str_of_int n ++ "x '" ++ found_med ++ "'.")).
Proof.
  split.
  - apply (proj1 place_order_success "deadbeef" "-12ab-4cd3"
                 "2025-06-30T08:15:00").
    reflexivity.
  - apply (proj1 (proj2 place_order_success) sample_env initial_store
                 "lisinopril" (VStr " 3 ") (Some "rx12345")).
    + apply reachable_initial.
    + reflexivity.
Defined.

(** A quantity that [int] turns into a number below the limit can be
    formatted. *)
Lemma printable_quantity q n :
  py_int q = Ok n ->
  Z.abs n < PyStr.str_digits_limit ->
  fstring_raises q = None.
Proof.
  intros Hq Hn. destruct q as [|b|z|str|f]; try reflexivity.
  simpl in Hq. injection Hq as ->. unfold fstring_raises, PyStr.int_too_long.
  destruct (Z.leb_spec PyStr.str_digits_limit (Z.abs n)); [lia|reflexivity].
Qed.

(** For a medication that needs no prescription, with a positive quantity
    that can be formatted and that the stock covers, [place_order] goes
    straight to the commit. *)
Lemma place_order_without_prescription env s name q ref k item n :
  fstring_raises q = None ->
  find_med name (inventory s) = Some (k, item) ->
  requires_prescription item = false ->
  py_int q = Ok n ->
  0 < n <= stock item ->
  place_order env name q ref s = commit_order env k n (upper_ref ref) s.
Proof.
  intros Hfs Hf Hrx Hq Hn. unfold place_order, quantity_int_of.
  rewrite Hfs, Hf, Hq.
  destruct (Z.leb_spec n 0); [lia|].
  destruct (Z.ltb_spec (stock item) n); [lia|].
  now rewrite Hrx.
Qed.

(** C10.  No prescription needed, none checked.  For a medication that
    does not require a prescription, a positive quantity and enough
    stock, in any store the program can reach, [place_order] succeeds
    whatever the prescription reference: the order it stores carries the
    upper-cased reference (nothing when no reference or an empty one was
    given), and neither the result nor the store left behind depends on
    the prescription records, so a reference that is invalid or unknown
    is accepted and stored all the same.  In particular an order of 5
    units of paracetamol with the invalid reference rx67890 is placed and
    stored with the reference RX67890. *)
Theorem place_order_skips_verification :
  (forall env s medication_name q ref found_med item n,
      reachable s ->
      find_med medication_name (inventory s) = Some (found_med, item) ->
      requires_prescription item = false ->
      py_int q = Ok n ->
      0 < n <= stock item ->
      exists r s' order,
        place_order env medication_name q ref s = (Returned r, s')
        /\ field "order_placed" r = Some (VBool true)
        /\ is_error r = false
        /\ Dict.get (new_order_id env) (orders s') = Some order
        /\ prescription_ref order = upper_ref ref
        /\ (forall text,
               ref = Some text -> text <> "" ->
               prescription_ref order = Some (PyStr.upper text))
        /\ (forall rx,
               place_order env medication_name q ref (with_prescriptions rx s)
               = (Returned r, with_prescriptions rx s')))
  /\ place_order (mkEnv "3f2a9c1b-7d4e-4a8b-9c6d-1e2f3a4b5c6d"
                        "2025-01-01T10:00:00")
                 "paracetamol" (VInt 5) (Some "rx67890") initial_store
     = (Returned
          (mkToolResult
             [ ("order_placed", VBool true); ("order_id", VStr "3F2A9C1B") ]
             [ ("feedback",
                VStr "Order placed successfully! Your Order ID is 3F2A9C1B. Current status: Processing.") ]),
        mkStore
          [ ("Paracetamol 500mg Tablets", mkItem 95 false);
            ("Amoxicillin 250mg Capsules", mkItem 50 true);
            ("Ibuprofen 200mg Tablets", mkItem 0 false);
            ("Lisinopril 10mg Tablets", mkItem 75 true) ]
          mock_drug_info
          [ ("3F2A9C1B",
             mkOrder "Paracetamol 500mg Tablets" 5 (Some "RX67890")
                     "Processing" "2025-01-01T10:00:00") ]
          mock_prescriptions)
  /\ upper_ref (Some "rx-unknown 9z") = Some "RX-UNKNOWN 9Z"
  /\ upper_ref (Some "") = None
  /\ upper_ref None = None.
Proof.
  split; [|repeat split].
  intros env s name q ref k item n Hs Hf Hrx Hq Hn.
  assert (Hfs : fstring_raises q = None).
  { apply (printable_quantity q n Hq).
    pose proof (reachable_stock_printable s Hs) as Hsmall.
    rewrite Forall_forall in Hsmall.
    pose proof (Hsmall _ (find_med_In _ _ _ _ Hf)) as Hk. simpl in Hk. lia. }
  assert (Hin : In k (Dict.keys (inventory s))).
  { apply find_med_In in Hf. change k with (fst (k, item)). now apply in_map. }
  destruct (get_present _ _ Hin) as [item' Hget].
  destruct (commit_order_returns env k n (upper_ref ref) s item' Hget)
    as (inv' & Hm & Hc).
  rewrite (place_order_without_prescription env s name q ref k item n)
    by assumption.
  rewrite Hc. do 2 eexists. exists (new_order env k n (upper_ref ref)).
  split; [reflexivity|]. split; [reflexivity|]. split; [reflexivity|].
  cbn [orders]. split; [apply get_set_same|]. split; [reflexivity|]. split.
  - intros text -> Htext. simpl.
    apply truthy_true_iff in Htext. now rewrite Htext.
  - intros rx.
    rewrite (place_order_without_prescription env _ name q ref k item n)
      by assumption.
    unfold commit_order, with_prescriptions. cbn [inventory orders drug_info
      prescriptions]. now rewrite Hm.
Qed.

Lemma place_order_skips_verification_witness :
  exists r s' order,
    place_order sample_env "paracetamol" (VInt 5) (Some "rx67890")
                initial_store
      = (Returned r, s')
    /\ field "order_placed" r = Some (VBool true)
    /\ is_error r = false
    /\ Dict.get "3F2A9C1B" (orders s') = Some order
    /\ prescription_ref order = Some "RX67890"
    /\ (forall text,
           Some "rx67890" = Some text -> text <> "" ->
           prescription_ref order = Some (PyStr.upper text))
    /\ (forall rx,
           place_order sample_env "paracetamol" (VInt 5) (Some "rx67890")
                       (with_prescriptions rx initial_store)
           = (Returned r, with_prescriptions rx s')).
Proof.
  apply (proj1 place_order_skips_verification sample_env initial_store
           "paracetamol" (VInt 5) (Some "rx67890")
           "Paracetamol 500mg Tablets" (mkItem 100 false) 5).
  - apply reachable_initial.
  - reflexivity.
  - reflexivity.
  - reflexivity.
  - simpl. lia.
Defined.

(* ================================================================== *)
(** * Further properties of the handlers *)

(** X1.  What a lookup returns matches the query.  In any table, a
    medication returned by the lookup loop is an entry of the table, its
    name is not empty, and its name contains the query when letter case
    is ignored; so the name [check_stock] reports always contains the
    name that was asked for. *)
Theorem lookup_result_contains_query :
  (forall (V : Type) (table : Dict.t V) query k v,
      find_med query table = Some (k, v) ->
      In (k, v) table
      /\ k <> ""
      /\ exists a b, PyStr.lower k = a ++ PyStr.lower query ++ b)
  /\ (forall s query r name,
         check_stock query s = (Returned r, s) ->
         field "medication_name" r = Some (VStr name) ->
         exists a b, PyStr.lower name = a ++ PyStr.lower query ++ b).
Proof.
  assert (H1 : forall (V : Type) (table : Dict.t V) query k v,
             find_med query table = Some (k, v) ->
             In (k, v) table
             /\ k <> ""
             /\ exists a b, PyStr.lower k = a ++ PyStr.lower query ++ b).
  { intros V table query k v. unfold find_med.
    destruct (find_loop query table None) as [[k' v']|] eqn:E; [|discriminate].
    destruct (PyStr.truthy k') eqn:Ek; [|discriminate].
    intros [= -> ->].
    apply find_loop_matches in E. destruct E as [E|[Hin Hsub]]; [discriminate|].
    split; [assumption|]. split; [now apply truthy_true_iff|].
    now apply contains_spec. }
  split; [exact H1|].
  intros s query r name. unfold check_stock.
  destruct (find_med query (inventory s)) as [[k item]|] eqn:E.
  - destruct (H1 _ _ _ _ _ E) as (_ & _ & Hsub).
    destruct (0 <? stock item); intros [= <-]; unfold field; simpl;
      intros [= <-]; exact Hsub.
  - intros [= <-]. discriminate.
Qed.

Lemma lookup_result_contains_query_witness :
  In ("Lisinopril 10mg Tablets", mkItem 75 true) mock_inventory
  /\ "Lisinopril 10mg Tablets" <> ""
  /\ exists a b,
       PyStr.lower "Lisinopril 10mg Tablets" = a ++ PyStr.lower "10MG" ++ b.
Proof.
  apply (proj1 lookup_result_contains_query InventoryItem mock_inventory
               "10MG" "Lisinopril 10mg Tablets" (mkItem 75 true)).
  reflexivity.
Defined.

(** X2.  Not found means no name contains the query.  In every store the
    program can reach, [check_stock] answers [medication_found] false
    exactly when none of the names of the catalogue contains the query,
    letter case ignored, and so does [place_order] refuse with Medication
    not found, for a quantity that can be formatted (for one that cannot,
    it raises before it looks the name up); [get_drug_info] answers
    [info_found] false exactly when none of the names with drug
    information does. *)
Theorem not_found_iff_no_name_contains_query :
  forall s query,
    reachable s ->
    (exists r,
        check_stock query s = (Returned r, s)
        /\ (medication_not_found r = true
            <-> Forall (fun k => PyStr.contains (PyStr.lower query)
                                                (PyStr.lower k) = false)
                       (Dict.keys mock_inventory)))
    /\ (forall env q ref,
           (forall e,
               fstring_raises q = Some e ->
               place_order env query q ref s = (Raised e, s))
           /\ (fstring_raises q = None ->
               (fst (place_order env query q ref s)
                = Returned (order_refused "Medication not found"
                              ("Cannot place order. Medication '" ++ query
                               ++ "' not found."))
                <-> Forall (fun k => PyStr.contains (PyStr.lower query)
                                                    (PyStr.lower k) = false)
                           (Dict.keys mock_inventory))))
    /\ (exists r,
           get_drug_info query s = (Returned r, s)
           /\ (field "info_found" r = Some (VBool false)
               <-> Forall (fun k => PyStr.contains (PyStr.lower query)
                                                   (PyStr.lower k) = false)
                          (Dict.keys mock_drug_info))).
Proof.
  intros s query Hs.
  destruct (reachable_invariant s Hs) as [(Hkeys & Hinfo & _) _].
  assert (Hnone : forall (V : Type) (d : Dict.t V),
             Forall (fun k => k <> "") (Dict.keys d) ->
             find_med query d = None
             <-> Forall (fun k => PyStr.contains (PyStr.lower query)
                                                 (PyStr.lower k) = false)
                        (Dict.keys d)).
  { intros V d Hne. rewrite find_med_two_phase by assumption.
    rewrite two_phase_none_iff. unfold Dict.keys. rewrite Forall_map.
    reflexivity. }
  assert (Hinv := Hnone _ (inventory s) (proj1 (reachable_distinct s Hs))).
  rewrite Hkeys in Hinv.
  assert (Hdi := Hnone _ mock_drug_info (proj1 mock_drug_info_distinct)).
  split; [|split].
  - unfold check_stock.
    destruct (find_med query (inventory s)) as [[k item]|].
    + destruct (0 <? stock item); eexists; (split; [reflexivity|]);
        rewrite <- Hinv; split; discriminate.
    + eexists; split; [reflexivity|]. rewrite <- Hinv. now split.
  - intros env q ref. split.
    + intros e He. unfold place_order. now rewrite He.
    + intros Hfs. rewrite <- Hinv.
      destruct (find_med query (inventory s)) as [[k item]|] eqn:Hf.
      * split; [|discriminate]. intros Hres. exfalso.
        destruct (place_order_outcome env query q ref s)
          as [(e & _ & E)
             |[(reason & text & _ & Hff & E)
              | (k0 & item0 & n & inv' & _ & _ & _ & _ & _ & _ & E)]];
          rewrite E in Hres; simpl in Hres; [discriminate | | discriminate].
        injection Hres as Hreason _. subst reason. revert Hff.
        unfold first_failed_check, checks, medication_exists.
        rewrite Hf. cbn [find fst snd negb option_map].
        destruct (quantity_positive q), (sufficient_stock s query q),
          (prescription_present s query ref),
          (prescription_verified s query ref); discriminate.
      * unfold place_order. rewrite Hfs, Hf. now split.
  - unfold get_drug_info. rewrite Hinfo.
    destruct (find_med query mock_drug_info) as [[k info]|].
    + eexists; split; [reflexivity|]. rewrite <- Hdi. split; discriminate.
    + eexists; split; [reflexivity|]. rewrite <- Hdi. now split.
Qed.

Lemma not_found_iff_no_name_contains_query_witness :
  (exists r,
      check_stock "aspirin" initial_store = (Returned r, initial_store)
      /\ (medication_not_found r = true
          <-> Forall (fun k => PyStr.contains (PyStr.lower "aspirin")
                                              (PyStr.lower k) = false)
                     (Dict.keys mock_inventory)))
  /\ (fst (place_order sample_env "aspirin" (VStr "1") None initial_store)
      = Returned (order_refused "Medication not found"
                    ("Cannot place order. Medication '" ++ "aspirin"
                     ++ "' not found."))
      <-> Forall (fun k => PyStr.contains (PyStr.lower "aspirin")
                                          (PyStr.lower k) = false)
                 (Dict.keys mock_inventory)).
Proof.
  destruct (not_found_iff_no_name_contains_query initial_store "aspirin"
              reachable_initial) as (H1 & H2 & _).
  split; [exact H1|].
  exact (proj2 (H2 sample_env (VStr "1") None) eq_refl).
Defined.

(** X3.  The empty name.  An empty medication name is not rejected: in
    every store the program can reach it selects the first medication of
    the table, so [check_stock], [place_order] and [get_drug_info] called
    with the empty name do what they do for Paracetamol 500mg Tablets. *)
Theorem empty_name_selects_first_medication :
  forall s,
    reachable s ->
    check_stock "" s = check_stock "Paracetamol 500mg Tablets" s
    /\ get_drug_info "" s = get_drug_info "Paracetamol 500mg Tablets" s
    /\ (forall env q ref,
           place_order env "" q ref s
           = place_order env "Paracetamol 500mg Tablets" q ref s).
Proof.
  intros s Hs.
  destruct (reachable_invariant s Hs) as [(Hkeys & Hinfo & _) _].
  pose proof (reachable_distinct s Hs) as Hd.
  destruct (inventory s) as [|[k item] rest] eqn:Einv; [discriminate|].
  assert (Hk : k = "Paracetamol 500mg Tablets") by now injection Hkeys.
  subst k.
  assert (H1 : find_med "" (inventory s)
               = Some ("Paracetamol 500mg Tablets", item)).
  { rewrite Einv. apply find_med_empty_query. apply Hd. }
  assert (H2 : find_med "Paracetamol 500mg Tablets" (inventory s)
               = Some ("Paracetamol 500mg Tablets", item)).
  { rewrite Einv. apply find_med_self; [exact Hd | now left]. }
  split; [|split].
  - unfold check_stock. now rewrite H1, H2.
  - unfold get_drug_info. rewrite Hinfo. reflexivity.
  - intros env q ref. unfold place_order. now rewrite H1, H2.
Qed.

Lemma empty_name_selects_first_medication_witness :
  check_stock "" initial_store
  = check_stock "Paracetamol 500mg Tablets" initial_store.
Proof.
  exact (proj1 (empty_name_selects_first_medication initial_store
                  reachable_initial)).
Defined.


(** X4.  Orders on record are sound.  In every store the program can
    reach, an order on record has an id in upper case, status Processing
    and a positive quantity that is no more than the initial stock of its
    medication, which is a name of the catalogue; and when that
    medication requires a prescription the order carries the reference
    RX12345, the only valid prescription record. *)
Theorem orders_on_record_are_sound :
  forall s id o,
    reachable s ->
    Dict.get id (orders s) = Some o ->
    PyStr.upper id = id
    /\ status o = "Processing"
    /\ 0 < quantity o
    /\ exists item0,
         Dict.get (medication o) mock_inventory = Some item0
         /\ quantity o <= stock item0
         /\ (requires_prescription item0 = true ->
             prescription_ref o = Some "RX12345").
Proof.
  intros s id o Hs Hget.
  destruct (reachable_kept s Hs) as (_ & _ & _ & Hord & _).
  unfold orders_ok in Hord. rewrite Forall_forall in Hord.
  exact (Hord (id, o) (get_In _ _ _ Hget)).
Qed.

Lemma orders_on_record_are_sound_witness :
  PyStr.upper "3F2A9C1B" = "3F2A9C1B"
  /\ status (new_order sample_env "Amoxicillin 250mg Capsules" 2
                       (Some "RX12345")) = "Processing"
  /\ 0 < quantity (new_order sample_env "Amoxicillin 250mg Capsules" 2
                             (Some "RX12345"))
  /\ exists item0,
       Dict.get (medication (new_order sample_env
                               "Amoxicillin 250mg Capsules" 2
                               (Some "RX12345"))) mock_inventory
       = Some item0
       /\ quantity (new_order sample_env "Amoxicillin 250mg Capsules" 2
                              (Some "RX12345")) <= stock item0
       /\ (requires_prescription item0 = true ->
           prescription_ref (new_order sample_env
                               "Amoxicillin 250mg Capsules" 2
                               (Some "RX12345")) = Some "RX12345").
Proof.
  apply (orders_on_record_are_sound
           (snd (run (PlaceOrder sample_env "amox" (VInt 2) (Some "rx12345"))
                     initial_store))
           "3F2A9C1B").
  - apply reachable_call. apply reachable_initial.
  - reflexivity.
Defined.

(** X5.  Stock only goes down, the catalogue stays.  From a store the
    program can reach, whatever calls follow, every medication of the
    inventory is still there with the same prescription flag, and its
    stock count is no higher than before and not below 0: no call adds a
    medication, removes one, changes a flag or restocks. *)
Theorem stock_only_goes_down :
  forall s cs k item,
    reachable s ->
    Dict.get k (inventory s) = Some item ->
    Dict.keys (inventory (run_all cs s)) = Dict.keys (inventory s)
    /\ exists item',
         Dict.get k (inventory (run_all cs s)) = Some item'
         /\ requires_prescription item' = requires_prescription item
         /\ 0 <= stock item' <= stock item.
Proof.
  intros s cs k item Hs Hget. now apply run_all_catalog.
Qed.

Lemma stock_only_goes_down_witness :
  Dict.keys (inventory
               (run_all [PlaceOrder sample_env "lisinopril" (VInt 5)
                                    (Some "RX12345");
                         CheckStock "lisinopril"] initial_store))
  = Dict.keys (inventory initial_store)
  /\ exists item',
       Dict.get "Lisinopril 10mg Tablets"
                (inventory
                   (run_all [PlaceOrder sample_env "lisinopril" (VInt 5)
                                        (Some "RX12345");
                             CheckStock "lisinopril"] initial_store))
       = Some item'
       /\ requires_prescription item'
          = requires_prescription (mkItem 75 true)
       /\ 0 <= stock item' <= stock (mkItem 75 true).
Proof.
  apply (stock_only_goes_down initial_store
           [PlaceOrder sample_env "lisinopril" (VInt 5) (Some "RX12345");
            CheckStock "lisinopril"]
           "Lisinopril 10mg Tablets" (mkItem 75 true)).
  - apply reachable_initial.
  - reflexivity.
Defined.

(** X6.  Out of stock is for good.  Once [check_stock] has answered a
    query with out of stock in a store the program can reach, then after
    any further calls it still answers that query with out of stock, and
    [place_order] refuses every order for that query, whatever the
    quantity and the reference. *)
Theorem out_of_stock_is_permanent :
  forall s cs query r,
    reachable s ->
    check_stock query s = (Returned r, s) ->
    out_of_stock r = true ->
    (exists r',
        check_stock query (run_all cs s) = (Returned r', run_all cs s)
        /\ out_of_stock r' = true)
    /\ (forall env q ref,
           placed (place_order env query q ref (run_all cs s)) = false).
Proof.
  intros s cs query r Hs Hcs Hout.
  unfold check_stock in Hcs.
  destruct (find_med query (inventory s)) as [[k item]|] eqn:Hf.
  2:{ injection Hcs as <-. discriminate. }
  destruct (Z.ltb_spec 0 (stock item)) as [Hlt|Hle].
  { injection Hcs as <-. discriminate. }
  clear Hcs Hout.
  pose proof (distinct_keys_NoDup _ (reachable_distinct s Hs)) as Hnd.
  assert (Hget : Dict.get k (inventory s) = Some item)
    by (apply NoDup_keys_get; [assumption | now apply find_med_In in Hf]).
  destruct (run_all_catalog cs s k item Hs Hget)
    as (Hkeys & item' & Hget' & _ & Hb).
  pose proof (run_all_reachable cs s Hs) as Hs'.
  pose proof (distinct_keys_NoDup _ (reachable_distinct _ Hs')) as Hnd'.
  destruct (find_med_same_keys query (inventory s) (inventory (run_all cs s))
              k item (eq_sym Hkeys) Hnd' Hf) as (v' & Hf' & Hg').
  rewrite Hget' in Hg'. injection Hg' as <-.
  split.
  - unfold check_stock. rewrite Hf'.
    destruct (Z.ltb_spec 0 (stock item')); [lia|].
    eexists. split; reflexivity.
  - intros env q ref. rewrite (placed_iff _ _ _ _ _ Hs').
    rewrite (all_checks_pass_found _ _ _ _ _ _ Hf').
    destruct (py_int q) as [n|e]; [|reflexivity].
    destruct (Z.ltb_spec 0 n); [|reflexivity].
    destruct (Z.leb_spec n (stock item')); [lia|reflexivity].
Qed.

Lemma out_of_stock_is_permanent_witness :
  (exists r',
      check_stock "ibuprofen"
                  (run_all [PlaceOrder sample_env "para" (VInt 1) None]
                           initial_store)
      = (Returned r',
         run_all [PlaceOrder sample_env "para" (VInt 1) None] initial_store)
      /\ out_of_stock r' = true)
  /\ (forall env q ref,
         placed (place_order env "ibuprofen" q ref
                   (run_all [PlaceOrder sample_env "para" (VInt 1) None]
                            initial_store))
         = false).
Proof.
  apply (out_of_stock_is_permanent initial_store
           [PlaceOrder sample_env "para" (VInt 1) None] "ibuprofen"
           (mkToolResult
              [ ("requires_prescription", VBool false);
                ("in_stock", VBool false);
                ("medication_name", VStr "Ibuprofen 200mg Tablets") ]
              [ ("feedback",
                 VStr "'Ibuprofen 200mg Tablets' is currently out of stock. Does not require prescription.");
                ("is_error", VBool true) ])).
  - apply reachable_initial.
  - reflexivity.
  - reflexivity.
Defined.

(** X7.  Units are conserved.  In every store the program can reach, the
    units left in the inventory and the units on the orders on record
    together are no more than the 225 units the catalogue started with:
    the orders never account for more than has left the inventory. *)
Theorem units_never_exceed_initial_stock :
  total_stock initial_store = 225
  /\ forall s,
       reachable s ->
       0 <= units_on_order s
       /\ total_stock s + units_on_order s <= 225.
Proof.
  split; [reflexivity|]. intros s Hs.
  destruct (reachable_kept s Hs) as (_ & _ & _ & Hord & Hsum).
  split; [|exact Hsum].
  clear Hsum. unfold units_on_order, orders_ok in *.
  revert Hord. generalize (orders s).
  induction 1 as [|e d He _ IH]; simpl; [lia|].
  destruct He as (_ & _ & Hq & _). lia.
Qed.

Lemma units_never_exceed_initial_stock_witness :
  0 <= units_on_order
         (run_all [PlaceOrder sample_env "para" (VInt 40) None;
                   PlaceOrder sample_env "para" (VInt 60) None]
                  initial_store)
  /\ total_stock
       (run_all [PlaceOrder sample_env "para" (VInt 40) None;
                 PlaceOrder sample_env "para" (VInt 60) None]
                initial_store)
     + units_on_order
         (run_all [PlaceOrder sample_env "para" (VInt 40) None;
                   PlaceOrder sample_env "para" (VInt 60) None]
                  initial_store)
     <= 225.
Proof.
  apply (proj2 units_never_exceed_initial_stock).
  apply run_all_reachable. apply reachable_initial.
Defined.

(** X8.  The stock report decides the order.  In any store,
    [place_order] places an order for a query only when [check_stock]
    answers that query with in stock, and only for a quantity between 1
    and the stock count it reports; so after an answer of not found or
    out of stock every order for the query is refused.  When the
    medication requires no prescription the converse holds too: an
    integer quantity m is accepted exactly when it is between 1 and the
    reported stock count, whatever the reference.  (The reported count is
    one that can be printed, below 10^4300, as every count that
    [check_stock] has formatted into its answer is.) *)
Theorem stock_report_decides_order :
  forall s query r,
    check_stock query s = (Returned r, s) ->
    (forall env q ref,
        placed (place_order env query q ref s) = true ->
        exists n m,
          field "in_stock" r = Some (VBool true)
          /\ field "stock_count" r = Some (VInt n)
          /\ py_int q = Ok m
          /\ 0 < m <= n)
    /\ (forall n,
           in_stock_without_prescription r = true ->
           field "stock_count" r = Some (VInt n) ->
           n < PyStr.str_digits_limit ->
           forall env m ref,
             placed (place_order env query (VInt m) ref s)
             = (0 <? m) && (m <=? n)).
Proof.
  intros s query r Hcs. unfold check_stock in Hcs.
  destruct (find_med query (inventory s)) as [[k item]|] eqn:Hf.
  - split.
    + intros env q ref Hpl. apply placed_passes in Hpl. revert Hpl.
      rewrite (all_checks_pass_found _ _ _ _ _ _ Hf).
      destruct (py_int q) as [m|e]; [|discriminate].
      destruct (Z.ltb_spec 0 m); [|discriminate].
      destruct (Z.leb_spec m (stock item)); [|discriminate].
      intros _. destruct (Z.ltb_spec 0 (stock item)); [|lia].
      injection Hcs as <-. exists (stock item), m. repeat split; auto.
    + destruct (0 <? stock item); injection Hcs as <-;
        intros n Hg Hn Hsmall env m ref;
        unfold in_stock_without_prescription, field in Hg; simpl in Hg.
      * unfold field in Hn. simpl in Hn. injection Hn as <-.
        rewrite placed_unless_raised.
        rewrite (all_checks_pass_found _ _ _ _ _ _ Hf).
        unfold place_order_raises. rewrite Hf.
        simpl py_int. cbv iota.
        destruct (requires_prescription item); [discriminate|].
        cbn [implb]. rewrite andb_true_r.
        unfold fstring_raises, PyStr.int_too_long.
        destruct (Z.leb_spec PyStr.str_digits_limit (Z.abs m));
          [|reflexivity].
        destruct (Z.ltb_spec 0 m); [|reflexivity].
        destruct (Z.leb_spec m (stock item)); [lia|reflexivity].
      * destruct (requires_prescription item); discriminate.
  - injection Hcs as <-. split.
    + intros env q ref Hpl. apply placed_passes in Hpl.
      now rewrite all_checks_pass_not_found in Hpl.
    + intros n Hg. discriminate.
Qed.

Lemma stock_report_decides_order_witness :
  (exists n m,
      field "in_stock" (mkToolResult
                          [ ("requires_prescription", VBool false);
                            ("in_stock", VBool true);
                            ("medication_name",
                             VStr "Paracetamol 500mg Tablets");
                            ("stock_count", VInt 100) ]
                          [ ("feedback",
                             VStr "'Paracetamol 500mg Tablets' is in stock (100 units available). Does not require prescription.") ])
      = Some (VBool true)
      /\ field "stock_count"
               (mkToolResult
                  [ ("requires_prescription", VBool false);
                    ("in_stock", VBool true);
                    ("medication_name", VStr "Paracetamol 500mg Tablets");
                    ("stock_count", VInt 100) ]
                  [ ("feedback",
                     VStr "'Paracetamol 500mg Tablets' is in stock (100 units available). Does not require prescription.") ])
         = Some (VInt n)
      /\ py_int (VStr "5") = Ok m
      /\ 0 < m <= n)
  /\ (forall env m ref,
         placed (place_order env "paracetamol" (VInt m) ref initial_store)
         = (0 <? m) && (m <=? 100)).
Proof.
  destruct (stock_report_decides_order initial_store "paracetamol" _
              eq_refl) as [H1 H2].
  split.
  - apply (H1 sample_env (VStr "5") None). reflexivity.
  - intros env m ref. apply (H2 100); reflexivity.
Defined.

(** X9.  The verified reference decides the order.  In every store the
    program can reach, when [check_stock] answers in stock with stock
    count n for a medication that requires a prescription, [place_order]
    for an integer quantity m and a reference places the order exactly
    when m is between 1 and n and [verify_prescription] answers verified
    for that reference; without a reference it never places it. *)
Theorem verified_reference_decides_order :
  forall s query r n,
    reachable s ->
    check_stock query s = (Returned r, s) ->
    in_stock_with_prescription r = true ->
    field "stock_count" r = Some (VInt n) ->
    (forall env m ref,
        exists rv,
          verify_prescription ref s = (Returned rv, s)
          /\ placed (place_order env query (VInt m) (Some ref) s)
             = (0 <? m) && (m <=? n)
               && match field "verified" rv with
                  | Some (VBool b) => b
                  | _ => false
                  end)
    /\ (forall env q, placed (place_order env query q None s) = false).
Proof.
  intros s query r n Hs Hcs Hg Hn.
  destruct (reachable_kept s Hs) as (_ & _ & Hrx & _).
  unfold check_stock in Hcs.
  destruct (find_med query (inventory s)) as [[k item]|] eqn:Hf.
  2:{ injection Hcs as <-. discriminate. }
  destruct (0 <? stock item); injection Hcs as <-; [|discriminate].
  unfold in_stock_with_prescription, field in Hg. simpl in Hg.
  unfold field in Hn. simpl in Hn. injection Hn as <-.
  destruct (requires_prescription item) eqn:Hreq; [|discriminate].
  split.
  - intros env m ref.
    rewrite (placed_iff _ _ _ _ _ Hs), (all_checks_pass_found _ _ _ _ _ _ Hf), Hreq.
    simpl py_int. cbv iota. cbn [implb].
    unfold verify_prescription.
    destruct (Dict.get_default (PyStr.upper ref) false (prescriptions s))
      eqn:Ev; eexists; (split; [reflexivity|]); unfold field; simpl.
    + f_equal. destruct ref; [|reflexivity].
      rewrite Hrx in Ev. discriminate.
    + now rewrite andb_false_r.
  - intros env q.
    rewrite (placed_iff _ _ _ _ _ Hs), (all_checks_pass_found _ _ _ _ _ _ Hf), Hreq.
    destruct (py_int q); [|reflexivity]. cbn [implb].
    now rewrite andb_false_r.
Qed.

Lemma verified_reference_decides_order_witness :
  (forall env m ref,
      exists rv,
        verify_prescription ref initial_store = (Returned rv, initial_store)
        /\ placed (place_order env "lisinopril" (VInt m) (Some ref)
                               initial_store)
           = (0 <? m) && (m <=? 75)
             && match field "verified" rv with
                | Some (VBool b) => b
                | _ => false
                end)
  /\ (forall env q,
         placed (place_order env "lisinopril" q None initial_store) = false).
Proof.
  apply (verified_reference_decides_order initial_store "lisinopril"
           (mkToolResult
              [ ("requires_prescription", VBool true);
                ("in_stock", VBool true);
                ("medication_name", VStr "Lisinopril 10mg Tablets");
                ("stock_count", VInt 75) ]
              [ ("feedback",
                 VStr "'Lisinopril 10mg Tablets' is in stock (75 units available). Requires prescription.") ])
           75).
  - apply reachable_initial.
  - reflexivity.
  - reflexivity.
  - reflexivity.
Defined.

(** A call removes no order. *)
Lemma run_keeps_orders c s id :
  Dict.get id (orders s) <> None ->
  Dict.get id (orders (snd (run c s))) <> None.
Proof.
  intros H.
  destruct c as [n|n|r|env name q ref|i];
    try (now rewrite read_only by exact I).
  simpl run.
  destruct (place_order_outcome env name q ref s)
    as [(e & _ & ->)
       |[(reason & text & _ & _ & ->)
        | (k & item & n & inv' & _ & _ & _ & _ & _ & _ & ->)]];
    [assumption | assumption |].
  cbn [snd orders]. now apply get_set_kept.
Qed.

(** A call that draws another id leaves the order under [id] as it is. *)
Lemma run_all_other_ids cs s id :
  other_ids id cs ->
  Dict.get id (orders (run_all cs s)) = Dict.get id (orders s).
Proof.
  intros Hcs. revert s.
  induction Hcs as [|c cs Hc _ IH]; simpl; intros s; [reflexivity|].
  rewrite IH.
  destruct c as [n|n|r|env name q ref|i];
    try (now rewrite read_only by exact I).
  simpl run.
  destruct (place_order_outcome env name q ref s)
    as [(e & _ & ->)
       |[(reason & text & _ & _ & ->)
        | (k & item & n & inv' & _ & _ & _ & _ & _ & _ & ->)]];
    [reflexivity | reflexivity |].
  cbn [snd orders]. apply get_set_other. congruence.
Qed.

(** A placed order is on record under its id, for the matched medication
    and the quantity as an integer. *)
Lemma placed_order_recorded env name q ref s :
  placed (place_order env name q ref s) = true ->
  exists k item n,
    find_med name (inventory s) = Some (k, item)
    /\ py_int q = Ok n
    /\ Dict.get (new_order_id env)
                (orders (snd (place_order env name q ref s)))
       = Some (new_order env k n (upper_ref ref)).
Proof.
  destruct (place_order_outcome env name q ref s)
    as [(e & _ & ->)
       |[(reason & text & _ & _ & ->)
        | (k & item & n & inv' & _ & _ & Hf & Hq & _ & _ & ->)]];
    [discriminate | discriminate |].
  intros _. exists k, item, n. cbn [snd orders].
  split; [exact Hf|]. split; [exact Hq|]. apply get_set_same.
Qed.

Lemma run_all_keeps_orders cs s id :
  Dict.get id (orders s) <> None ->
  Dict.get id (orders (run_all cs s)) <> None.
Proof.
  revert s. induction cs as [|c cs IH]; simpl; intros s H; [assumption|].
  apply IH. now apply run_keeps_orders.
Qed.

(** X10.  Reference answers never change.  In every store the program
    can reach, [get_drug_info] and [verify_prescription] answer as they
    do in the initial store: placing orders changes neither the drug
    information nor the prescription records. *)
Theorem reference_answers_never_change :
  forall s text,
    reachable s ->
    fst (get_drug_info text s) = fst (get_drug_info text initial_store)
    /\ fst (verify_prescription text s)
       = fst (verify_prescription text initial_store).
Proof.
  intros s text Hs.
  destruct (reachable_kept s Hs) as (_ & Hdi & Hrx & _).
  unfold get_drug_info, verify_prescription. rewrite Hdi, Hrx.
  cbn [drug_info prescriptions initial_store]. split.
  - now destruct (find_med text mock_drug_info) as [[k info]|].
  - now destruct (Dict.get_default (PyStr.upper text) false
                                   mock_prescriptions).
Qed.

Lemma reference_answers_never_change_witness :
  fst (get_drug_info "amox"
         (run_all [PlaceOrder sample_env "amox" (VInt 50) (Some "rx12345")]
                  initial_store))
  = fst (get_drug_info "amox" initial_store)
  /\ fst (verify_prescription "amox"
            (run_all [PlaceOrder sample_env "amox" (VInt 50)
                                 (Some "rx12345")]
                     initial_store))
     = fst (verify_prescription "amox" initial_store).
Proof.
  apply reference_answers_never_change.
  apply run_all_reachable. apply reachable_initial.
Defined.

(** X11.  An order id stays on record.  In any store, once
    [place_order] has placed an order, the order under the returned id is
    the one placed: the matched medication, the quantity as an integer,
    the upper-cased reference.  After any further calls
    [check_order_status] still finds an order under that id, written in
    any letter case: no call removes an order.  The order found is the
    one placed as long as no later call draws the same id; a later order
    that draws the same id takes its place. *)
Theorem order_id_stays_on_record :
  forall s env name q ref,
    placed (place_order env name q ref s) = true ->
    exists k item n,
      find_med name (inventory s) = Some (k, item)
      /\ py_int q = Ok n
      /\ Dict.get (new_order_id env)
                  (orders (snd (place_order env name q ref s)))
         = Some (new_order env k n (upper_ref ref))
      /\ (forall cs id,
             PyStr.lower id = PyStr.lower (new_order_id env) ->
             exists r,
               check_order_status id
                 (run_all cs (snd (place_order env name q ref s)))
               = (Returned r,
                  run_all cs (snd (place_order env name q ref s)))
               /\ field "status_found" r = Some (VBool true)
               /\ is_error r = false)
      /\ (forall cs,
             other_ids (new_order_id env) cs ->
             Dict.get (new_order_id env)
                      (orders (run_all cs
                                 (snd (place_order env name q ref s))))
             = Some (new_order env k n (upper_ref ref)))
      /\ (forall env' name' q' ref',
             new_order_id env' = new_order_id env ->
             placed (place_order env' name' q' ref'
                       (snd (place_order env name q ref s))) = true ->
             exists k' item' n',
               find_med name' (inventory (snd (place_order env name q ref s)))
               = Some (k', item')
               /\ py_int q' = Ok n'
               /\ Dict.get (new_order_id env)
                           (orders
                              (snd (place_order env' name' q' ref'
                                      (snd (place_order env name q ref s)))))
                  = Some (new_order env' k' n' (upper_ref ref'))).
Proof.
  intros s env name q ref Hplaced.
  destruct (placed_order_recorded env name q ref s Hplaced)
    as (k & item & n & Hf & Hq & Hget).
  exists k, item, n. split; [exact Hf|]. split; [exact Hq|].
  split; [exact Hget|]. split; [|split].
  - intros cs id Hid.
    assert (Hsome : Dict.get (new_order_id env)
                      (orders (snd (place_order env name q ref s))) <> None)
      by (rewrite Hget; discriminate).
    apply (run_all_keeps_orders cs) in Hsome.
    apply same_lower_iff_same_upper in Hid. rewrite new_order_id_upper in Hid.
    unfold check_order_status. rewrite Hid.
    destruct (Dict.get (new_order_id env) (orders (run_all cs _)))
      as [o|] eqn:Eo; [|congruence].
    eexists. split; [reflexivity|]. now split.
  - intros cs Hcs. now rewrite run_all_other_ids.
  - intros env' name' q' ref' Hsame Hplaced'.
    destruct (placed_order_recorded env' name' q' ref' _ Hplaced')
      as (k' & item' & n' & Hf' & Hq' & Hget').
    exists k', item', n'. rewrite <- Hsame. auto.
Qed.

Lemma order_id_stays_on_record_witness :
  exists k item n,
    find_med "amox" (inventory initial_store) = Some (k, item)
    /\ py_int (VInt 2) = Ok n
    /\ Dict.get "3F2A9C1B"
                (orders (snd (place_order sample_env "amox" (VInt 2)
                                          (Some "rx12345") initial_store)))
       = Some (new_order sample_env k n (Some "RX12345"))
    /\ (forall cs id,
           PyStr.lower id = PyStr.lower "3F2A9C1B" ->
           exists r,
             check_order_status id
               (run_all cs (snd (place_order sample_env "amox" (VInt 2)
                                             (Some "rx12345") initial_store)))
             = (Returned r,
                run_all cs (snd (place_order sample_env "amox" (VInt 2)
                                             (Some "rx12345") initial_store)))
             /\ field "status_found" r = Some (VBool true)
             /\ is_error r = false)
    /\ (forall cs,
           other_ids "3F2A9C1B" cs ->
           Dict.get "3F2A9C1B"
                    (orders (run_all cs
                               (snd (place_order sample_env "amox" (VInt 2)
                                                 (Some "rx12345")
                                                 initial_store))))
           = Some (new_order sample_env k n (Some "RX12345")))
    /\ (forall env' name' q' ref',
           new_order_id env' = "3F2A9C1B" ->
           placed (place_order env' name' q' ref'
                     (snd (place_order sample_env "amox" (VInt 2)
                                       (Some "rx12345") initial_store)))
           = true ->
           exists k' item' n',
             find_med name'
               (inventory (snd (place_order sample_env "amox" (VInt 2)
                                            (Some "rx12345") initial_store)))
             = Some (k', item')
             /\ py_int q' = Ok n'
             /\ Dict.get "3F2A9C1B"
                         (orders
                            (snd (place_order env' name' q' ref'
                                    (snd (place_order sample_env "amox"
                                            (VInt 2) (Some "rx12345")
                                            initial_store)))))
                = Some (new_order env' k' n' (upper_ref ref'))).
Proof.
  apply (order_id_stays_on_record initial_store sample_env "amox" (VInt 2)
           (Some "rx12345")).
  reflexivity.
Defined.

(** X12.  The guards of the journeys partition the results.  The result
    of [check_stock] satisfies exactly one of the four guards the order
    journey branches on (in stock with prescription, in stock without,
    out of stock, not found), each read as the field being there with
    that value, in any store; a result returned by another tool holds its
    outcome field as a boolean, so exactly one of the two guards on it
    holds, and those tools return unless [raises] names an exception,
    which only [place_order] can meet. *)
Theorem journey_guards_partition_results :
  (forall s query,
      exists r,
        check_stock query s = (Returned r, s)
        /\ count_occ bool_dec
                     [ in_stock_with_prescription r;
                       in_stock_without_prescription r;
                       out_of_stock r;
                       medication_not_found r ] true = 1%nat)
  /\ (forall c s,
         match c with CheckStock _ => False | _ => True end ->
         match raises c s with
         | None =>
             exists r b,
               fst (run c s) = Returned r
               /\ field (outcome_field c) r = Some (VBool b)
         | Some e => fst (run c s) = Raised e
         end).
Proof.
  split.
  - intros s query. unfold check_stock.
    destruct (find_med query (inventory s)) as [[k item]|].
    + destruct (0 <? stock item), (requires_prescription item) eqn:E;
        eexists; (split; [reflexivity|]);
        unfold in_stock_with_prescription, in_stock_without_prescription,
          out_of_stock, medication_not_found, field; simpl;
        rewrite ?E; reflexivity.
    + eexists; split; reflexivity.
  - intros [name|name|ref|env name q ref|id] s Hc; simpl raises; simpl run;
      try contradiction.
    + unfold get_drug_info.
      destruct (find_med name (drug_info s)) as [[k info]|];
        do 2 eexists; split; reflexivity.
    + unfold verify_prescription.
      destruct (Dict.get_default _ false (prescriptions s));
        do 2 eexists; split; reflexivity.
    + destruct (place_order_outcome env name q ref s)
        as [(e & -> & ->)
           |[(reason & text & -> & _ & ->)
            | (k & item & n & inv' & -> & _ & _ & _ & _ & _ & ->)]];
        [reflexivity | |]; do 2 eexists; split; reflexivity.
    + unfold check_order_status.
      destruct (Dict.get (PyStr.upper id) (orders s));
        do 2 eexists; split; reflexivity.
Qed.

Lemma journey_guards_partition_results_witness :
  match raises (PlaceOrder sample_env "para" (VStr "x") None) initial_store
  with
  | None =>
      exists r b,
        fst (run (PlaceOrder sample_env "para" (VStr "x") None)
                 initial_store) = Returned r
        /\ field (outcome_field (PlaceOrder sample_env "para" (VStr "x")
                                            None)) r
           = Some (VBool b)
  | Some e =>
      fst (run (PlaceOrder sample_env "para" (VStr "x") None) initial_store)
      = Raised e
  end.
Proof.
  apply (proj2 journey_guards_partition_results). exact I.
Defined.

(** X13.  The next stock report shows the order.  In every store the
    program can reach, after [place_order] has placed an order of n units
    for a query, [check_stock] for the same query names the same
    medication and reports the stock count lowered by n, or out of stock
    when the order took all that was left. *)
Theorem stock_report_after_order :
  forall s env query q ref,
    reachable s ->
    placed (place_order env query q ref s) = true ->
    exists k item n r',
      find_med query (inventory s) = Some (k, item)
      /\ py_int q = Ok n
      /\ check_stock query (snd (place_order env query q ref s))
         = (Returned r', snd (place_order env query q ref s))
      /\ field "medication_name" r' = Some (VStr k)
      /\ field "in_stock" r' = Some (VBool (n <? stock item))
      /\ field "stock_count" r'
         = (if n <? stock item then Some (VInt (stock item - n)) else None).
Proof.
  intros s env query q ref Hs Hplaced.
  pose proof (distinct_keys_NoDup _ (reachable_distinct s Hs)) as Hnd.
  destruct (place_order_cases env query q ref s Hnd)
    as [(e & _ & E)
       |[(reason & text & _ & _ & E)
        |(k & item & n & inv' & _ & _ & Hf & Hget & Hq & Hn & Hmod & E)]];
    rewrite E in *; [discriminate | discriminate |].
  destruct (modify_present k item (decrement_stock n) _ Hget)
    as (d' & Hm' & Hnew & _ & Hkeys).
  rewrite Hmod in Hm'. injection Hm' as <-.
  assert (Hnd' : NoDup (Dict.keys inv')) by now rewrite Hkeys.
  destruct (find_med_same_keys query (inventory s) inv' k item
              (eq_sym Hkeys) Hnd' Hf) as (v' & Hf' & Hg').
  rewrite Hnew in Hg'. injection Hg' as <-.
  exists k, item, n. cbn [snd]. unfold check_stock. cbn [inventory].
  rewrite Hf'. cbn [stock decrement_stock requires_prescription].
  destruct (Z.ltb_spec 0 (stock item - n)), (Z.ltb_spec n (stock item));
    try lia; eexists; repeat split; (assumption || reflexivity).
Qed.

Lemma stock_report_after_order_witness :
  exists k item n r',
    find_med "lisinopril" (inventory initial_store) = Some (k, item)
    /\ py_int (VInt 75) = Ok n
    /\ check_stock "lisinopril"
         (snd (place_order sample_env "lisinopril" (VInt 75)
                           (Some "Rx12345") initial_store))
       = (Returned r',
          snd (place_order sample_env "lisinopril" (VInt 75)
                           (Some "Rx12345") initial_store))
    /\ field "medication_name" r' = Some (VStr k)
    /\ field "in_stock" r' = Some (VBool (n <? stock item))
    /\ field "stock_count" r'
       = (if n <? stock item then Some (VInt (stock item - n)) else None).
Proof.
  apply stock_report_after_order.
  - apply reachable_initial.
  - reflexivity.
Defined.

(** The loop reads the query in lower case only. *)
Lemma find_loop_lower {V} q1 q2 (d : Dict.t V) found :
  PyStr.lower q1 = PyStr.lower q2 ->
  find_loop q1 d found = find_loop q2 d found.
Proof.
  intros H. revert found.
  induction d as [|[name data] d IH]; simpl; intros found; [reflexivity|].
  rewrite H.
  destruct (String.eqb (PyStr.lower q2) (PyStr.lower name)); [reflexivity|].
  destruct (PyStr.contains (PyStr.lower q2) (PyStr.lower name)
            && not_found_yet found); apply IH.
Qed.

(** X14.  Names are matched whatever the letter case.  Two medication
    names that differ in letter case only find the same medication in any
    table; [check_stock] and [get_drug_info] then return the same result
    data, and [place_order] the same result data and the same store.
    (The feedback text of a not-found result quotes the name as typed.) *)
Theorem lookup_ignores_case :
  forall q1 q2,
    PyStr.lower q1 = PyStr.lower q2 ->
    (forall (V : Type) (table : Dict.t V),
        find_med q1 table = find_med q2 table)
    /\ (forall s,
           option_map data (returned (check_stock q1 s))
           = option_map data (returned (check_stock q2 s))
           /\ option_map data (returned (get_drug_info q1 s))
              = option_map data (returned (get_drug_info q2 s)))
    /\ (forall env q ref s,
           option_map data (returned (place_order env q1 q ref s))
           = option_map data (returned (place_order env q2 q ref s))
           /\ snd (place_order env q1 q ref s)
              = snd (place_order env q2 q ref s)).
Proof.
  intros q1 q2 H.
  assert (Hf : forall (V : Type) (table : Dict.t V),
             find_med q1 table = find_med q2 table).
  { intros V table. unfold find_med. now rewrite (find_loop_lower q1 q2). }
  split; [exact Hf|]. split.
  - intros s. unfold check_stock, get_drug_info. rewrite !Hf. split.
    + destruct (find_med q2 (inventory s)) as [[k item]|]; [|reflexivity].
      now destruct (0 <? stock item).
    + now destruct (find_med q2 (drug_info s)) as [[k info]|].
  - intros env q ref s. unfold place_order. rewrite Hf.
    destruct (fstring_raises q); [split; reflexivity|].
    destruct (find_med q2 (inventory s)) as [[k item]|]; split; reflexivity.
Qed.

Lemma lookup_ignores_case_witness :
  snd (place_order sample_env "AMOX" (VInt 1) (Some "rx12345") initial_store)
  = snd (place_order sample_env "amox" (VInt 1) (Some "rx12345")
                     initial_store).
Proof.
  apply (proj2 (proj2 (lookup_ignores_case "AMOX" "amox" eq_refl))).
Defined.

(** X15.  Every medication with drug information is stocked.  Each name
    of the drug information table is a name of the inventory, so in every
    store the program can reach, a query for which [get_drug_info] finds
    information is a query for which [check_stock] finds a medication. *)
Theorem info_found_implies_medication_found :
  incl (Dict.keys mock_drug_info) (Dict.keys mock_inventory)
  /\ forall s query,
       reachable s ->
       (exists ri,
           get_drug_info query s = (Returned ri, s)
           /\ field "info_found" ri = Some (VBool true)) ->
       exists rs name,
         check_stock query s = (Returned rs, s)
         /\ field "medication_name" rs = Some (VStr name)
         /\ medication_not_found rs = false.
Proof.
  assert (Hincl : incl (Dict.keys mock_drug_info) (Dict.keys mock_inventory)).
  { intros k Hk. simpl in *. intuition. }
  split; [exact Hincl|].
  intros s query Hs (ri & Hgi & Hfound).
  destruct (reachable_kept s Hs) as (_ & Hdi & _).
  unfold get_drug_info in Hgi. rewrite Hdi in Hgi.
  destruct (find_med query mock_drug_info) as [[k info]|] eqn:Hf.
  2:{ injection Hgi as <-. discriminate. }
  clear Hgi Hfound.
  assert (Hsome : find_med query (inventory s) <> None).
  { rewrite find_med_two_phase by apply (reachable_distinct s Hs).
    rewrite two_phase_none_iff, Forall_forall. intros Hall.
    rewrite find_med_two_phase in Hf by apply mock_drug_info_distinct.
    assert (Hsub : substring_match query (k, info) = true
                   /\ In k (Dict.keys mock_drug_info)).
    { unfold two_phase_lookup in Hf.
      destruct (find (exact_match query) mock_drug_info) as [e|] eqn:E.
      - injection Hf as ->. apply find_some in E. destruct E as [Hin Hex].
        split; [now apply exact_is_substring|].
        change k with (fst (k, info)). now apply in_map.
      - apply find_some in Hf. destruct Hf as [Hin Hsub].
        split; [assumption|]. change k with (fst (k, info)).
        now apply in_map. }
    destruct Hsub as [Hsub Hin]. apply Hincl in Hin.
    destruct (reachable_invariant s Hs) as [(Hkeys & _) _].
    rewrite <- Hkeys in Hin. unfold Dict.keys in Hin.
    apply in_map_iff in Hin. destruct Hin as ([k' item] & Hk' & Hin').
    simpl in Hk'. subst k'. apply Hall in Hin'.
    unfold substring_match in *. simpl in *. congruence. }
  unfold check_stock.
  destruct (find_med query (inventory s)) as [[k' item]|]; [|contradiction].
  destruct (0 <? stock item); do 2 eexists; split; reflexivity || now split.
Qed.

Lemma info_found_implies_medication_found_witness :
  exists rs name,
    check_stock "capsules" initial_store = (Returned rs, initial_store)
    /\ field "medication_name" rs = Some (VStr name)
    /\ medication_not_found rs = false.
Proof.
  apply (proj2 info_found_implies_medication_found initial_store "capsules").
  - apply reachable_initial.
  - eexists. split; reflexivity.
Defined.

(** X16.  Two orders share the stock.  In every store the program can
    reach, after an order of n units of a medication that requires no
    prescription has been placed, a second order for the same query, for
    an integer quantity m, is placed exactly when m is between 1 and what
    the first order left: the stock count before it, less n. *)
Theorem second_order_gets_what_is_left :
  forall s env1 env2 query n m ref1 ref2 k item,
    reachable s ->
    find_med query (inventory s) = Some (k, item) ->
    requires_prescription item = false ->
    placed (place_order env1 query (VInt n) ref1 s) = true ->
    placed (place_order env2 query (VInt m) ref2
                        (snd (place_order env1 query (VInt n) ref1 s)))
    = (0 <? m) && (m <=? stock item - n).
Proof.
  intros s env1 env2 query n m ref1 ref2 k item Hs Hf Hreq Hplaced.
  pose proof (distinct_keys_NoDup _ (reachable_distinct s Hs)) as Hnd.
  pose proof (reachable_call (PlaceOrder env1 query (VInt n) ref1) s Hs)
    as Hs'.
  simpl run in Hs'.
  destruct (place_order_cases env1 query (VInt n) ref1 s Hnd)
    as [(e & _ & E)
       |[(reason & text & _ & _ & E)
        |(k0 & item0 & n0 & inv' & _ & _ & Hf0 & Hget & Hq & Hn & Hmod & E)]];
    rewrite E in *; [discriminate | discriminate |].
  rewrite Hf in Hf0. injection Hf0 as <- <-. injection Hq as <-.
  destruct (modify_present k item (decrement_stock n) _ Hget)
    as (d' & Hm' & Hnew & _ & Hkeys).
  rewrite Hmod in Hm'. injection Hm' as <-.
  assert (Hnd' : NoDup (Dict.keys inv')) by now rewrite Hkeys.
  destruct (find_med_same_keys query (inventory s) inv' k item
              (eq_sym Hkeys) Hnd' Hf) as (v' & Hf' & Hg').
  rewrite Hnew in Hg'. injection Hg' as <-.
  cbn [snd] in *. rewrite (placed_iff _ _ _ _ _ Hs').
  rewrite (all_checks_pass_found _ _ _ _ k (decrement_stock n item)) by exact Hf'.
  simpl py_int. cbv iota. cbn [decrement_stock stock requires_prescription].
  rewrite Hreq. cbn [implb]. now rewrite andb_true_r.
Qed.

Lemma second_order_gets_what_is_left_witness :
  placed (place_order sample_env "para" (VInt 41) None
            (snd (place_order sample_env "para" (VInt 60) None
                              initial_store)))
  = (0 <? 41) && (41 <=? stock (mkItem 100 false) - 60).
Proof.
  apply (second_order_gets_what_is_left initial_store sample_env sample_env
           "para" 60 41 None None "Paracetamol 500mg Tablets"
           (mkItem 100 false)).
  - apply reachable_initial.
  - reflexivity.
  - reflexivity.
  - reflexivity.
Defined.
